(** * pydoop.hdfs.core.bridged.hadoop: the bridged HDFS core

    A shallow embedding of [CoreHdfsFs] and [CoreHdfsFile] from
    [pydoop/hdfs/core/bridged/hadoop.py].  The Java side of the bridge
    (Hadoop's FileSystem, its streams, java.nio and java.lang) is not part of
    the module: it is a parameter, a handler that answers every call made
    through the bridge, and each Python method is a computation that threads
    the state of the Java side and the trace of the calls it issued. *)

From Stdlib Require Import ZArith List Lia.
From stdpp Require Import base strings pretty gmap.

Local Open Scope string_scope.
Local Open Scope Z_scope.

(** ** Python values and exceptions *)

(** The exception classes the module raises or lets through.  All of them
    derive from [Exception], so [except Exception, e] catches every one. *)
Inductive exn_class : Type :=
| IOError
| ValueError
| Exception
| AttributeError
| KeyError
| JavaException.

(** An exception instance; [message] is what [e.message] reads ([""] for a
    bare [raise IOError]). *)
Record pyexn : Type := mk_exn { cls : exn_class; message : string }.

(** The values stored in the dictionaries and returned by the methods whose
    result type depends on the path taken. *)
Inductive pyval : Type :=
| VNone
| VStr (s : string)
| VInt (n : Z)
| VBool (b : bool).

(** ** The Java side *)

(** A reference to a Java object held through the bridge. *)
Definition jref : Type := nat.

(** [org.apache.hadoop.fs.Path], as far as the module looks into it. *)
#[warnings="-register-all"]
Inductive JPath : Type :=
  mk_JPath (toString : string) (getName : string) (depth : Z)
           (isAbsolute : bool) (getParent : option JPath).

Definition Path_toString (p : JPath) : string :=
  match p with mk_JPath s _ _ _ _ => s end.
Definition Path_getName (p : JPath) : string :=
  match p with mk_JPath _ n _ _ _ => n end.
Definition Path_depth (p : JPath) : Z :=
  match p with mk_JPath _ _ d _ _ => d end.
Definition Path_isAbsolute (p : JPath) : bool :=
  match p with mk_JPath _ _ _ a _ => a end.
Definition Path_getParent (p : JPath) : option JPath :=
  match p with mk_JPath _ _ _ _ q => q end.

(** [org.apache.hadoop.fs.FileStatus]: the getters the module calls.  The
    two times are Java [long]s. *)
Record JFileStatus : Type := mk_JFileStatus {
  getPath : JPath;
  getGroup : string;
  getOwner : string;
  getModificationTime : Z;
  getAccessTime : Z;
  getReplication : Z;
  getPermission_toShort : Z;
  getLen : Z
}.

(** The calls that cross the bridge, indexed by the type of their answer.
    A Java [byte[]] is a list of signed bytes; a call that fills a buffer
    answers with the count and the buffer as the call left it. *)
Inductive jcall : Type -> Type :=
| Configuration_new (loadDefaults : bool) : jcall jref
| Configuration_getInt (conf : jref) (name : string) (default : Z) : jcall Z
| FileSystem_getLocal (conf : jref) : jcall jref
| FileSystem_getDefaultUri (conf : jref) : jcall jref
| FileSystem_get (uri conf : jref) (user : option string) : jcall jref
| URI_create (s : string) : jcall jref
| Path_new (s : string) : jcall JPath
| fs_getFileStatus (fs : jref) (p : JPath) : jcall JFileStatus
| fs_isDirectory (fs : jref) (p : JPath) : jcall bool
| fs_getBlockSize (fs : jref) (p : JPath) : jcall Z
| fs_getUri_toString (fs : jref) : jcall string
| fs_getDefaultBlockSize (fs : jref) (p : JPath) : jcall Z
| fs_setOwner (fs : jref) (p : JPath) (user group : pyval) : jcall unit
| fs_open (fs : jref) (p : JPath) (buff_size : Z) : jcall jref
| fs_append (fs : jref) (p : JPath) : jcall jref
| fs_create (fs : jref) (p : JPath) (overwrite : bool)
            (buff_size replication blocksize : Z) : jcall jref
| BufferedOutputStream_new (out : option jref) : jcall jref
| jbytearray (data : string) : jcall (list Z)
| ByteBuffer_allocate_array (capacity : Z) : jcall (list Z)
| stream_read (s : jref) (buf : list Z) : jcall (Z * list Z)
| stream_pread (s : jref) (position : Z) (buf : list Z) (off len : Z)
    : jcall (Z * list Z)
| stream_write (s : jref) (bytes : list Z) : jcall unit
| stream_seek (s : jref) (position : Z) : jcall unit
| stream_getPos (s : jref) : jcall Z
| stream_available (s : jref) : jcall Z
| stream_flush (s : jref) : jcall unit
| stream_close (s : jref) : jcall unit.

(** What the run of a method leaves behind: the bridge calls, in order, and
    the records handed to the module's logger. *)
Inductive event : Type :=
| Called {R : Type} (c : jcall R)
| Logged (level msg : string).

(** A Java side with states [W]: each call answers with a value or throws
    (the string is the Java exception's message), and moves the state. *)
Definition handler (W : Type) : Type :=
  forall R : Type, jcall R -> W -> (R + string) * W.

(** ** The monad of the Python methods *)

Inductive result (A : Type) : Type :=
| Ok (a : A)
| Raise (e : pyexn).
Arguments Ok {A} a.
Arguments Raise {A} e.

Record World (W : Type) : Type := mk_World { jvm : W; trace : list event }.
Arguments mk_World {W} jvm trace.
Arguments jvm {W} w.
Arguments trace {W} w.

Definition M (W A : Type) : Type := World W -> result A * World W.

Definition ret {W A} (a : A) : M W A := fun w => (Ok a, w).

Definition raise {W A} (c : exn_class) (msg : string) : M W A :=
  fun w => (Raise (mk_exn c msg), w).

Definition bind {W A B} (m : M W A) (k : A -> M W B) : M W B :=
  fun w => match m w with
           | (Ok a, w') => k a w'
           | (Raise e, w') => (Raise e, w')
           end.

(** [try: m except Exception, e: h e] *)
Definition try_except {W A} (m : M W A) (h : pyexn -> M W A) : M W A :=
  fun w => match m w with
           | (Ok a, w') => (Ok a, w')
           | (Raise e, w') => h e w'
           end.

Definition invoke {W R} (java : handler W) (c : jcall R) : M W R :=
  fun w => match java R c (jvm w) with
           | (inl r, s) => (Ok r, mk_World s (trace w ++ [Called c]))
           | (inr msg, s) =>
               (Raise (mk_exn JavaException msg),
                mk_World s (trace w ++ [Called c]))
           end.

Definition logger {W} (level msg : string) : M W unit :=
  fun w => (Ok tt, mk_World (jvm w) (trace w ++ [Logged level msg])).

Declare Scope py_scope.
Delimit Scope py_scope with py.
Notation "x <- m ;; k" := (bind m (fun x => k))
  (at level 100, m at next level, right associativity) : py_scope.
Notation "m ;;; k" := (bind m (fun _ => k))
  (at level 100, right associativity) : py_scope.
Local Open Scope py_scope.

(** ** Module constants *)

Definition BUFFER_SIZE_CONFIG_PROPERTY : string := "io.file.buffer.size".
Definition REPLICATION_CONFIG_PROPERTY : string := "dfs.replication".
Definition BLOCKSIZE_CONFIG_PROPERTY : string := "dfs.blocksize".

(** The [os.O_*] flags, with their values on Linux. *)
Definition O_RDONLY : Z := 0.
Definition O_WRONLY : Z := 1.
Definition O_RDWR : Z := 2.
Definition O_CREAT : Z := 64.
Definition O_EXCL : Z := 128.
Definition O_APPEND : Z := 1024.

(** Python's [str(n)] and ["%s" % n] on an integer. *)
Definition str_of_int (n : Z) : string := pretty n.

(** [s is None or s == ''] *)
Definition none_or_empty (s : option string) : bool :=
  match s with
  | None => true
  | Some v => bool_decide (v = "")
  end.

(** The truth value of an optional string: [None] and [''] are false. *)
Definition truthy (s : option string) : bool := negb (none_or_empty s).

(** The truth value of an integer. *)
Definition nonzero (n : Z) : bool := negb (n =? 0).

(** ** Byte marshaling *)

(** [buf[:n]] on a list: a negative [n] counts from the end. *)
Definition slice_to {A} (buf : list A) (n : Z) : list A :=
  if n <? 0
  then firstn (Z.to_nat (Z.max 0 (Z.of_nat (length buf) + n))) buf
  else firstn (Z.to_nat n) buf.

(** [chr(n)]: the one-character string of code [n]. *)
Definition chr {W} (n : Z) : M W string :=
  if (0 <=? n) && (n <? 256)
  then ret (String (Ascii.ascii_of_N (Z.to_N n)) "")
  else raise ValueError "chr() arg not in range(256)".

(** [map(f, l)] for an [f] that may raise. *)
Fixpoint map_py {W A B} (f : A -> M W B) (l : list A) : M W (list B) :=
  match l with
  | [] => ret []
  | x :: l' => y <- f x;; ys <- map_py f l';; ret (y :: ys)
  end.

(** [''.join(map(lambda x: chr((x+256)%256), buf[:read]))], the expression
    that all four read variants repeat. *)
Definition marshal {W} (buf : list Z) (read : Z) : M W string :=
  cs <- map_py (fun x => chr ((x + 256) mod 256)) (slice_to buf read);;
  ret (String.concat "" cs).

(** [ord] of every character of a string. *)
Fixpoint ords (s : string) : list Z :=
  match s with
  | EmptyString => []
  | String a s' => Z.of_N (Ascii.N_of_ascii a) :: ords s'
  end.

(** [len(s)] *)
Definition len (s : string) : Z := Z.of_nat (String.length s).

(** The caller's chunk: a buffer object of a fixed size whose [value]
    attribute the chunk variants read and assign. *)
Record Chunk : Type := mk_Chunk { chunk_len : Z; value : string }.

Definition set_value (c : Chunk) (v : string) : Chunk :=
  mk_Chunk (chunk_len c) v.

(** ** class CoreHdfsFile *)

Module CoreHdfsFile.

Definition _INPUT : Z := 0.
Definition _OUTPUT : Z := 1.

  (** The attributes of a file handle.  [_buffered_stream] exists on OUTPUT
      handles only; [_jbytearray], set next to it, is the bridge's converter
      to [byte[]] and is the call [jbytearray]. *)
Record t : Type := mk {
    _mode : Z;
    _stream : option jref;
    _stream_type : Z;
    _buffered_stream : option jref
  }.

Section Methods.
Context {W : Type}.
Variable java : handler W.
    (** [pydoop.hdfs.common.BUFSIZE] *)
Variable BUFSIZE : Z.

Definition __init__ (mode : Z) (stream : option jref) (stream_type : Z)
      : M W t :=
      if stream_type =? _OUTPUT then
        b <- invoke java (BufferedOutputStream_new stream);;
        ret (mk mode stream stream_type (Some b))
      else ret (mk mode stream stream_type None).

Definition available (self : t) : M W Z :=
      match _stream self with
      | None => ret (-1)
      | Some stream =>
          if negb (_stream_type self =? _INPUT) then ret (-1)
          else invoke java (stream_available stream)
      end.

Definition get_mode (self : t) : M W Z := ret (_mode self).

Definition close (self : t) : M W unit :=
      match _stream self with
      | None => raise IOError ""
      | Some stream =>
          try_except (invoke java (stream_close stream))
                     (fun e => raise IOError (message e))
      end.

Definition _write (self : t) (data : string) (length : Z) : M W Z :=
      match _stream self with
      | None => raise IOError ""
      | Some stream =>
          if negb (_stream_type self =? _OUTPUT) then raise IOError ""
          else if length <? 0 then raise IOError ""
          else
            (if 0 <? length then
               bytes <- invoke java (jbytearray data);;
               invoke java (stream_write stream bytes)
             else ret tt);;;
            ret length
      end.

Definition write_chunk (self : t) (chunk : Chunk) : M W Z :=
      _write self (value chunk) (len (value chunk)).

Definition write (self : t) (data : string) : M W Z :=
      _write self data (len data).

Definition tell (self : t) : M W Z :=
      match _stream self with
      | None => raise IOError ""
      | Some stream => invoke java (stream_getPos stream)
      end.

Definition seek (self : t) (position : Z) : M W unit :=
      match _stream self with
      | None => raise IOError ""
      | Some stream =>
          if negb (_stream_type self =? _INPUT) then raise IOError ""
          else invoke java (stream_seek stream position)
      end.

Definition read (self : t) (length : Z) : M W string :=
      match _stream self with
      | None => raise IOError ""
      | Some stream =>
          if negb (_stream_type self =? _INPUT) then raise IOError ""
          else
            try_except
              (let length := if length =? -1 then BUFSIZE else length in
               buf <- invoke java (ByteBuffer_allocate_array length);;
               r <- invoke java (stream_read stream buf);;
               let '(read, buf) := r in
               if read =? -1 then ret ""
               else marshal buf read)
              (fun e => raise IOError (message e))
      end.

Definition read_chunk (self : t) (chunk : Chunk) : M W (pyval * Chunk) :=
      match _stream self with
      | None => raise IOError ""
      | Some stream =>
          if negb (_stream_type self =? _INPUT) then raise IOError ""
          else
            try_except
              (let length := chunk_len chunk in
               buf <- invoke java (ByteBuffer_allocate_array length);;
               r <- invoke java (stream_read stream buf);;
               let '(read, buf) := r in
               if read =? -1 then ret (VStr "", chunk)
               else
                 v <- marshal buf read;;
                 ret (VInt read, set_value chunk v))
              (fun e => raise IOError (message e))
      end.

Definition pread (self : t) (position length : Z) : M W string :=
      match _stream self with
      | None => raise IOError ""
      | Some stream =>
          if negb (_stream_type self =? _INPUT) then raise IOError ""
          else
            try_except
              (let length := if length =? -1 then BUFSIZE else length in
               buf <- invoke java (ByteBuffer_allocate_array length);;
               r <- invoke java (stream_pread stream position buf 0 length);;
               let '(read, buf) := r in
               marshal buf read)
              (fun e => raise IOError (message e))
      end.

Definition pread_chunk (self : t) (position : Z) (chunk : Chunk)
      : M W (Z * Chunk) :=
      match _stream self with
      | None => raise IOError ""
      | Some stream =>
          if negb (_stream_type self =? _INPUT) then raise IOError ""
          else
            try_except
              (let length := chunk_len chunk in
               buf <- invoke java (ByteBuffer_allocate_array length);;
               r <- invoke java (stream_pread stream position buf 0 length);;
               let '(read, buf) := r in
               v <- marshal buf read;;
               ret (read, set_value chunk v))
              (fun e => raise IOError (message e))
      end.

Definition flush (self : t) : M W unit :=
      match _stream self with
      | None => raise IOError ""
      | Some stream =>
          if negb (_stream_type self =? _OUTPUT) then raise IOError ""
          else invoke java (stream_flush stream)
      end.

End Methods.
End CoreHdfsFile.

(** ** Module-level helpers *)

(** [Long.valueOf(l).intValue()]: Java's narrowing of a [long] to an [int]
    keeps the low 32 bits, read as a signed number. *)
Definition Long_intValue (l : Z) : Z := (l + 2 ^ 31) mod 2 ^ 32 - 2 ^ 31.

(** [d[k]] on a dictionary *)
Definition getitem {W} (d : gmap string pyval) (k : string) : M W pyval :=
  match d !! k with
  | Some v => ret v
  | None => raise KeyError k
  end.

(** [v is None or v == ''] *)
Definition is_none_or_empty (v : pyval) : bool :=
  match v with
  | VNone => true
  | VStr s => bool_decide (s = "")
  | _ => false
  end.

Definition get_jpath {W} (java : handler W) (path : string) : M W JPath :=
  if bool_decide (path = "") then raise ValueError "Empty path"
  else invoke java (Path_new path).

(** ** class CoreHdfsFs *)

Module CoreHdfsFs.

  (** The attributes of a filesystem handle; [_fs] and [_fs_uri] are unset
      until [_connect] assigns them. *)
Record t : Type := mk {
    _host : option string;
    _port : Z;
    _user : option string;
    _groups : option (list string);
    _configuration : jref;
    _fs : option jref;
    _fs_uri : option jref
  }.

Definition set_fs (self : t) (fs : jref) : t :=
    mk (_host self) (_port self) (_user self) (_groups self)
       (_configuration self) (Some fs) (_fs_uri self).

Definition set_fs_uri (self : t) (uri : jref) : t :=
    mk (_host self) (_port self) (_user self) (_groups self)
       (_configuration self) (_fs self) (Some uri).

Section Methods.
Context {W : Type}.
Variable java : handler W.

    (** Reading the attribute [self._fs]. *)
Definition the_fs (self : t) : M W jref :=
      match _fs self with
      | Some fs => ret fs
      | None =>
          raise AttributeError "'CoreHdfsFs' object has no attribute '_fs'"
      end.

Definition _connect (self : t) : M W t :=
      if none_or_empty (_host self) then
        fs <- invoke java (FileSystem_getLocal (_configuration self));;
        ret (set_fs self fs)
      else if bool_decide (_host self = Some "default") && (_port self =? 0)
      then
        uri <- invoke java (FileSystem_getDefaultUri (_configuration self));;
        let self := set_fs_uri self uri in
        if truthy (_user self) then
          fs <- invoke java
                  (FileSystem_get uri (_configuration self) (_user self));;
          ret (set_fs self fs)
        else
          fs <- invoke java (FileSystem_get uri (_configuration self) None);;
          ret (set_fs self fs)
      else
        let uri_str :=
          "hdfs://" +:+ default "" (_host self) +:+ ":"
                    +:+ str_of_int (_port self) in
        uri <- invoke java (URI_create uri_str);;
        let self := set_fs_uri self uri in
        if truthy (_user self) then
          fs <- invoke java
                  (FileSystem_get uri (_configuration self) (_user self));;
          ret (set_fs self fs)
        else
          fs <- invoke java (FileSystem_get uri (_configuration self) None);;
          ret (set_fs self fs).

Definition __init__ (host : option string) (port : Z)
        (user : option string) (groups : option (list string)) : M W t :=
      conf <- invoke java (Configuration_new true);;
      _connect (mk host port user groups conf None None).

Definition _get_jpath_info (self : t) (jpath : JPath)
        (jstatus : option JFileStatus) : M W (gmap string pyval) :=
      let info : gmap string pyval := ∅ in
      sp <- match jstatus with
            | None =>
                try_except
                  (fs <- the_fs self;;
                   jstatus <- invoke java (fs_getFileStatus fs jpath);;
                   ret (jstatus, getPath jstatus))
                  (fun _ => raise IOError "")
            | Some jstatus => ret (jstatus, jpath)
            end;;
      let '(jstatus, jpath) := sp in
      let info := <["name" := VStr (Path_toString jpath)]> info in
      fs <- the_fs self;;
      isdir <- invoke java (fs_isDirectory fs jpath);;
      let info :=
        if isdir : bool then <["kind" := VStr "directory"]> info
        else <["kind" := VStr "file"]> info in
      let info := <["group" := VStr (getGroup jstatus)]> info in
      let info :=
        <["last_mod" :=
            VInt (Long_intValue (getModificationTime jstatus))]> info in
      let info :=
        <["last_access" :=
            VInt (Long_intValue (getAccessTime jstatus))]> info in
      let info := <["replication" := VInt (getReplication jstatus)]> info in
      let info := <["owner" := VStr (getOwner jstatus)]> info in
      let info :=
        <["permissions" := VInt (getPermission_toShort jstatus)]> info in
      block_size <- invoke java (fs_getBlockSize fs jpath);;
      let info := <["block_size" := VInt block_size]> info in
      let info :=
        <["path" := VStr (Path_toString (getPath jstatus))]> info in
      fs_uri <- invoke java (fs_getUri_toString fs);;
      let info := <["fs_uri" := VStr fs_uri]> info in
      let info := <["depth" := VInt (Path_depth jpath)]> info in
      let info := <["size" := VInt (getLen jstatus)]> info in
      let info := <["absolute" := VBool (Path_isAbsolute jpath)]> info in
      let info :=
        match Path_getParent jpath with
        | Some parent => <["parent" := VStr (Path_getName parent)]> info
        | None => info
        end in
      ret info.

Definition get_path_info (self : t) (path : string)
      : M W (gmap string pyval) :=
      jpath <- get_jpath java path;;
      _get_jpath_info self jpath None.

Definition chown (self : t) (path : string) (user group : pyval)
      : M W unit :=
      if is_none_or_empty user && is_none_or_empty group then
        raise Exception "Both owner and group cannot be null in chown"
      else
        jpath <- get_jpath java path;;
        old_path_info <- _get_jpath_info self jpath None;;
        user <- (if is_none_or_empty user
                 then getitem old_path_info "owner" else ret user);;
        group <- (if is_none_or_empty group
                  then getitem old_path_info "group" else ret group);;
        fs <- the_fs self;;
        invoke java (fs_setOwner fs jpath user group).

Definition open_file (self : t) (path : string)
        (flags buff_size replication blocksize readline_chunk_size : Z)
      : M W CoreHdfsFile.t :=
      let O_ACCMODE := Z.lor (Z.lor O_RDONLY O_RDWR) O_WRONLY in
      let accmode := Z.land flags O_ACCMODE in
      if negb (accmode =? O_WRONLY) && negb (accmode =? O_RDONLY) then
        if accmode =? O_RDWR then
          raise IOError "Cannot open an hdfs file in O_RDWR mode"
        else
          raise IOError
            ("Cannot open an hdfs file in mode " +:+ str_of_int accmode)
      else
        (if nonzero (Z.land flags O_CREAT) && nonzero (Z.land flags O_EXCL)
         then logger "warn" "hdfs does not truly support O_CREATE && O_EXCL"
         else ret tt);;;
        buff_size <-
          (if negb (nonzero buff_size) then
             invoke java (Configuration_getInt (_configuration self)
                            BLOCKSIZE_CONFIG_PROPERTY 4096)
           else ret buff_size);;
        replication <-
          (if (accmode =? O_WRONLY) && (Z.land flags O_APPEND =? 0)
              && negb (nonzero replication)
           then invoke java (Configuration_getInt (_configuration self)
                               REPLICATION_CONFIG_PROPERTY 1)
           else ret replication);;
        jpath <- get_jpath java path;;
        st <- try_except
                (fs <- the_fs self;;
                 if accmode =? O_RDONLY then
                   stream <- invoke java (fs_open fs jpath buff_size);;
                   logger "debug" "File opened in read mode";;;
                   ret (stream, CoreHdfsFile._INPUT)
                 else if (accmode =? O_WRONLY)
                         && nonzero (Z.land flags O_APPEND) then
                   stream <- invoke java (fs_append fs jpath);;
                   logger "debug" "File opened in append mode";;;
                   ret (stream, CoreHdfsFile._OUTPUT)
                 else
                   let boolean_overwrite := true in
                   blocksize <-
                     (if negb (nonzero blocksize)
                      then invoke java (fs_getDefaultBlockSize fs jpath)
                      else ret blocksize);;
                   stream <- invoke java
                               (fs_create fs jpath boolean_overwrite
                                          buff_size replication blocksize);;
                   logger "debug" "File opened in write mode";;;
                   ret (stream, CoreHdfsFile._OUTPUT))
                (fun e => raise IOError (message e));;
        let '(stream, stream_type) := st in
        CoreHdfsFile.__init__ java flags (Some stream) stream_type.

End Methods.
End CoreHdfsFs.

(** ** The rest of class CoreHdfsFs

    The administrative methods make calls that the methods above do not.
    They run on a Java side that answers both kinds of call and that keeps,
    in [calls], every call in the order it was made. *)

(** A block location, as far as [get_hosts] looks into it: its hosts. *)
Definition JBlockLocation : Type := list string.

(** [str(x)] on a string. *)
Definition py_str (x : string) : string := x.

Inductive fscall : Type -> Type :=
| FsPermission_new (mode : Z) : fscall jref
| fs_setPermission (fs : jref) (p : JPath) (permission : jref) : fscall unit
| fs_exists (fs : jref) (p : JPath) : fscall bool
| fs_getRawCapacity (fs : jref) : fscall Z
| fs_getRawUsed (fs : jref) : fscall Z
| fs_close (fs : jref) : fscall unit
| FileUtil_copy (src_fs : jref) (src : JPath) (dst_fs : jref)
                (dst : JPath) (delete_source : bool) (conf : jref)
    : fscall bool
| fs_mkdirs (fs : jref) (p : JPath) : fscall bool
| fs_delete (fs : jref) (p : JPath) (recursive : bool) : fscall bool
| fs_getDefaultBlockSize0 (fs : jref) : fscall Z
| fs_getFileBlockLocations (fs : jref) (status : JFileStatus)
                           (start length : Z)
    : fscall (list JBlockLocation)
| fs_getWorkingDirectory_toString (fs : jref) : fscall string
| fs_setWorkingDirectory (fs : jref) (p : JPath) : fscall unit
| fs_setReplication (fs : jref) (p : JPath) (replication : Z) : fscall bool
| fs_listStatus (fs : jref) (p : JPath) : fscall (list JFileStatus)
| fs_rename (fs : jref) (src dst : JPath) : fscall bool
| fs_setTimes (fs : jref) (p : JPath) (mtime atime : Z) : fscall unit.

Inductive bridge_event : Type :=
| CoreCall {R : Type} (c : jcall R)
| FsCall {R : Type} (c : fscall R).

Record Bridge (W : Type) : Type :=
  mk_Bridge { java_state : W; calls : list bridge_event }.
Arguments mk_Bridge {W} java_state calls.
Arguments java_state {W} b.
Arguments calls {W} b.

Definition fs_handler (W : Type) : Type :=
  forall R : Type, fscall R -> W -> (R + string) * W.

(** The calls of the methods above, made on the Java side that records. *)
Definition core {W} (java : handler W) : handler (Bridge W) :=
  fun R c b =>
    match java R c (java_state b) with
    | (r, s) => (r, mk_Bridge s (calls b ++ [CoreCall c]))
    end.

Definition invoke_fs {W R} (admin : fs_handler W) (c : fscall R)
  : M (Bridge W) R :=
  fun w =>
    match admin R c (java_state (jvm w)) with
    | (inl r, s) =>
        (Ok r,
         mk_World (mk_Bridge s (calls (jvm w) ++ [FsCall c])) (trace w))
    | (inr msg, s) =>
        (Raise (mk_exn JavaException msg),
         mk_World (mk_Bridge s (calls (jvm w) ++ [FsCall c])) (trace w))
    end.

Module CoreHdfsFsAdmin.

Import CoreHdfsFs.

Section Methods.
Context {W : Type}.
Variable java : handler W.
Variable admin : fs_handler W.

Definition chmod (self : t) (path : string) (mode : Z)
  : M (Bridge W) unit :=
  jpath_ <- get_jpath (core java) path;;
  jpermission <- invoke_fs admin (FsPermission_new mode);;
  fs <- the_fs self;;
  invoke_fs admin (fs_setPermission fs jpath_ jpermission).

Definition exists_ (self : t) (path : string) : M (Bridge W) bool :=
  fs <- the_fs self;;
  jpath <- get_jpath (core java) path;;
  invoke_fs admin (fs_exists fs jpath).

Definition get_capacity (self : t) : M (Bridge W) Z :=
  fs <- the_fs self;;
  invoke_fs admin (fs_getRawCapacity fs).

Definition close (self : t) : M (Bridge W) unit :=
  fs <- the_fs self;;
  invoke_fs admin (fs_close fs).

Definition _copy_helper (self : t) (from_path : string) (to_hdfs : t)
    (to_path : string) (delete_source : bool) : M (Bridge W) bool :=
  src_path <- get_jpath (core java) from_path;;
  dst_path <- get_jpath (core java) to_path;;
  fs <- the_fs self;;
  to_fs <- the_fs to_hdfs;;
  invoke_fs admin
    (FileUtil_copy fs src_path to_fs dst_path delete_source
                   (_configuration self)).

Definition copy (self : t) (from_path : string) (to_hdfs : t)
    (to_path : string) : M (Bridge W) unit :=
  _copy_helper self from_path to_hdfs to_path false;;;
  ret tt.

Definition create_directory (self : t) (path : string)
  : M (Bridge W) bool :=
  fs <- the_fs self;;
  jpath <- get_jpath (core java) path;;
  invoke_fs admin (fs_mkdirs fs jpath).

Definition delete (self : t) (path : string) (recursive : bool)
  : M (Bridge W) unit :=
  jpath <- get_jpath (core java) path;;
  fs <- the_fs self;;
  invoke_fs admin (fs_delete fs jpath recursive);;;
  ret tt.

Definition get_user (self : t) : option string := _user self.

Definition get_default_block_size (self : t) : M (Bridge W) Z :=
  fs <- the_fs self;;
  invoke_fs admin (fs_getDefaultBlockSize0 fs).

Definition get_host (self : t) : option string := _host self.

(** [path] is a string or a Java path. *)
Definition _get_jfilestatus (self : t) (path : string + JPath)
  : M (Bridge W) JFileStatus :=
  jpath <- match path with
           | inl s => get_jpath (core java) s
           | inr p => ret p
           end;;
  fs <- the_fs self;;
  invoke (core java) (fs_getFileStatus fs jpath).

Definition get_hosts (self : t) (path : string) (start length : Z)
  : M (Bridge W) (list (list string)) :=
  jpath <- get_jpath (core java) path;;
  jstatus <- _get_jfilestatus self (inr jpath);;
  fs <- the_fs self;;
  jblock_locations <-
    invoke_fs admin (fs_getFileBlockLocations fs jstatus start length);;
  map_py (fun jblock_location : JBlockLocation =>
            ret (map py_str jblock_location))
         jblock_locations.

Definition get_working_directory (self : t) : M (Bridge W) string :=
  fs <- the_fs self;;
  invoke_fs admin (fs_getWorkingDirectory_toString fs).

Definition get_port (self : t) : Z := _port self.

Definition get_used (self : t) : M (Bridge W) Z :=
  fs <- the_fs self;;
  invoke_fs admin (fs_getRawUsed fs).

Definition set_working_directory (self : t) (path : string)
  : M (Bridge W) unit :=
  jpath <- get_jpath (core java) path;;
  fs <- the_fs self;;
  invoke_fs admin (fs_setWorkingDirectory fs jpath).

Definition move (self : t) (from_path : string) (to_hdfs : t)
    (to_path : string) : M (Bridge W) unit :=
  _copy_helper self from_path to_hdfs to_path true;;;
  ret tt.

Definition set_replication (self : t) (path : string) (replication : Z)
  : M (Bridge W) unit :=
  jpath <- get_jpath (core java) path;;
  fs <- the_fs self;;
  invoke_fs admin (fs_setReplication fs jpath replication);;;
  ret tt.

Definition list_directory (self : t) (path : string)
  : M (Bridge W) (list (gmap string pyval)) :=
  jpath <- get_jpath (core java) path;;
  fs <- the_fs self;;
  found <- invoke_fs admin (fs_exists fs jpath);;
  if negb found then
    raise IOError ("Path " +:+ path +:+ " does not exist")
  else
    fs <- the_fs self;;
    jsubstatus <- invoke_fs admin (fs_listStatus fs jpath);;
    map_py (fun jstatus =>
              _get_jpath_info (core java) self (getPath jstatus)
                              (Some jstatus))
           jsubstatus.

Definition rename (self : t) (from_path to_path : string)
  : M (Bridge W) unit :=
  jfrom_path <- get_jpath (core java) from_path;;
  jto_path <- get_jpath (core java) to_path;;
  fs <- the_fs self;;
  invoke_fs admin (fs_rename fs jfrom_path jto_path);;;
  ret tt.

Definition utime (self : t) (path : string) (mtime atime : Z)
  : M (Bridge W) unit :=
  jpath <- get_jpath (core java) path;;
  fs <- the_fs self;;
  invoke_fs admin (fs_setTimes fs jpath mtime atime).

End Methods.
End CoreHdfsFsAdmin.

(** ** setup.py: when a generated file is out of date

    The files are seen through their modification times; [os.stat] raises
    OSError on a path that is not there.  The times are only compared. *)

Module Setup.

Inductive error : Type :=
| OSError
| ValueError.

(** [os.stat(fn).st_mtime] *)
Definition mtime (files : gmap string Z) (fn : string) : error + Z :=
  match files !! fn with
  | Some t => inr t
  | None => inl OSError
  end.

(** The values of [mtime(p) for p in prerequisites], up to the first one
    that raises. *)
Fixpoint mtimes (files : gmap string Z) (prerequisites : list string)
  : error + list Z :=
  match prerequisites with
  | [] => inr []
  | p :: ps =>
      match mtime files p with
      | inl e => inl e
      | inr t =>
          match mtimes files ps with
          | inl e => inl e
          | inr ts => inr (t :: ts)
          end
      end
  end.

(** [max] of a sequence: ValueError on the empty one. *)
Definition py_max (l : list Z) : error + Z :=
  match l with
  | [] => inl ValueError
  | x :: l' => inr (fold_left Z.max l' x)
  end.

Definition must_generate (files : gmap string Z) (target : string)
    (prerequisites : list string) : error + bool :=
  let attempt :=
    match mtimes files prerequisites with
    | inl e => inl e
    | inr ts =>
        match py_max ts with
        | inl e => inl e
        | inr newest =>
            match mtime files target with
            | inl e => inl e
            | inr t => inr (t <? newest)
            end
        end
    end in
  match attempt with
  | inl OSError => inr true
  | r => r
  end.

End Setup.

(** ** A small Java side to run the methods on

    One file behind every stream: [contents] are its bytes (signed, as Java
    has them), [position] the cursor of the stream, [closed] the streams
    closed so far.  A closed stream throws on every call but [close]. *)

Record jstate : Type := mk_jstate {
  contents : list Z;
  position : Z;
  closed : list jref;
  fresh : jref
}.

Definition is_closed (st : jstate) (s : jref) : bool :=
  bool_decide (s ∈ closed st).

Definition new_ref (st : jstate) : (jref + string) * jstate :=
  (inl (fresh st),
   mk_jstate (contents st) (position st) (closed st) (S (fresh st))).

Definition on_open {R} (st : jstate) (s : jref)
    (k : (R + string) * jstate) : (R + string) * jstate :=
  if is_closed st s then (inr "Stream closed", st) else k.

(** A Java [byte] from a character code. *)
Definition to_jbyte (n : Z) : Z := if 128 <=? n then n - 256 else n.

(** Filling [buf] from the file at offset [pos]: the count, or -1 at the end
    of the file (the buffer is then left as it was), and the buffer. *)
Definition fill (st : jstate) (pos : Z) (buf : list Z) : Z * list Z :=
  let rest := skipn (Z.to_nat pos) (contents st) in
  match buf, rest with
  | [], _ => (0, buf)
  | _, [] => (-1, buf)
  | _, _ =>
      let n := Nat.min (length buf) (length rest) in
      (Z.of_nat n, (firstn n rest ++ skipn n buf)%list)
  end.

Definition sim_status (st : jstate) (p : JPath) : JFileStatus :=
  mk_JFileStatus p "supergroup" "hdfs" 1400000000000 1400000000123 3 420
                 (Z.of_nat (length (contents st))).

Definition sim_java : handler jstate :=
  fun R c st =>
    match c in jcall R return (R + string) * jstate with
    | Configuration_new _ => new_ref st
    | Configuration_getInt _ _ default => (inl default, st)
    | FileSystem_getLocal _ => new_ref st
    | FileSystem_getDefaultUri _ => new_ref st
    | FileSystem_get _ _ _ => new_ref st
    | URI_create _ => new_ref st
    | Path_new s =>
        (inl (mk_JPath s s 1 true (Some (mk_JPath "/" "" 0 true None))), st)
    | fs_getFileStatus _ p => (inl (sim_status st p), st)
    | fs_isDirectory _ _ => (inl false, st)
    | fs_getBlockSize _ _ => (inl 134217728, st)
    | fs_getUri_toString _ => (inl "hdfs://localhost:9000", st)
    | fs_getDefaultBlockSize _ _ => (inl 134217728, st)
    | fs_setOwner _ _ _ _ => (inl tt, st)
    | fs_open _ _ _ => new_ref st
    | fs_append _ _ => new_ref st
    | fs_create _ _ _ _ _ _ => new_ref st
    | BufferedOutputStream_new _ => new_ref st
    | jbytearray data => (inl (map to_jbyte (ords data)), st)
    | ByteBuffer_allocate_array n =>
        if n <? 0 then (inr "", st)
        else (inl (repeat 0 (Z.to_nat n)), st)
    | stream_read s buf =>
        on_open st s
          (let '(n, buf') := fill st (position st) buf in
           (inl (n, buf'),
            mk_jstate (contents st) (position st + Z.max 0 n)
                      (closed st) (fresh st)))
    | stream_pread s pos buf _ _ =>
        on_open st s (inl (fill st pos buf), st)
    | stream_write s bytes =>
        on_open st s
          (inl tt,
           mk_jstate (contents st ++ bytes)%list (position st)
                     (closed st) (fresh st))
    | stream_seek s pos =>
        on_open st s
          (inl tt, mk_jstate (contents st) pos (closed st) (fresh st))
    | stream_getPos s => on_open st s (inl (position st), st)
    | stream_available s =>
        on_open st s
          (inl (Z.of_nat (length (contents st)) - position st), st)
    | stream_flush s => on_open st s (inl tt, st)
    | stream_close s =>
        (inl tt,
         mk_jstate (contents st) (position st) (s :: closed st) (fresh st))
    end.

(** A file of five bytes, two of them negative as Java bytes, the cursor at
    its end; stream 7 is open on it. *)
Definition sim_at_eof : World jstate :=
  mk_World (mk_jstate [104; -61; -87; 33; 10] 5 [] 8%nat) [].

(** The same file with the cursor at its start. *)
Definition sim_at_start : World jstate :=
  mk_World (mk_jstate [104; -61; -87; 33; 10] 0 [] 8%nat) [].

Definition input_handle : CoreHdfsFile.t :=
  CoreHdfsFile.mk O_RDONLY (Some 7%nat) CoreHdfsFile._INPUT None.

Definition output_handle : CoreHdfsFile.t :=
  CoreHdfsFile.mk O_WRONLY (Some 7%nat) CoreHdfsFile._OUTPUT (Some 8%nat).

Definition sim_fs : CoreHdfsFs.t :=
  CoreHdfsFs.mk (Some "node1") 9000 None None 0%nat (Some 2%nat) (Some 1%nat).

(** The path that the small Java side builds for "/a". *)
Definition sim_path : JPath :=
  mk_JPath "/a" "/a" 1 true (Some (mk_JPath "/" "" 0 true None)).

(** The administrative calls on the small Java side: every path exists but
    "/missing", and a directory has the two children "a" and "b". *)

Definition sim_child (p : JPath) (name : string) : JPath :=
  mk_JPath (Path_toString p +:+ "/" +:+ name) name (Path_depth p + 1) true
           (Some p).

Definition sim_admin : fs_handler jstate :=
  fun R c st =>
    match c in fscall R return (R + string) * jstate with
    | FsPermission_new _ => new_ref st
    | fs_setPermission _ _ _ => (inl tt, st)
    | fs_exists _ p =>
        (inl (negb (bool_decide (Path_toString p = "/missing"))), st)
    | fs_getRawCapacity _ => (inl 1099511627776, st)
    | fs_getRawUsed _ => (inl (Z.of_nat (length (contents st))), st)
    | fs_close _ => (inl tt, st)
    | FileUtil_copy _ _ _ _ _ _ => (inl true, st)
    | fs_mkdirs _ _ => (inl true, st)
    | fs_delete _ _ _ => (inl true, st)
    | fs_getDefaultBlockSize0 _ => (inl 134217728, st)
    | fs_getFileBlockLocations _ _ _ _ =>
        (inl [["node1"; "node2"]; ["node3"]], st)
    | fs_getWorkingDirectory_toString _ => (inl "/user/hdfs", st)
    | fs_setWorkingDirectory _ _ => (inl tt, st)
    | fs_setReplication _ _ _ => (inl true, st)
    | fs_listStatus _ p =>
        (inl [sim_status st (sim_child p "a"); sim_status st (sim_child p "b")],
         st)
    | fs_rename _ _ _ => (inl true, st)
    | fs_setTimes _ _ _ _ => (inl tt, st)
    end.

(** The recording Java side before any call, on the five-byte file. *)
Definition sim_bridge : World (Bridge jstate) :=
  mk_World (mk_Bridge (jvm sim_at_eof) []) [].

(** The small Java side with a path it refuses: fetching the status of
    "/forbidden", or opening, appending to or creating it, throws. *)
Definition sim_refusal {R} (c : jcall R) : option string :=
  let refuse (p : JPath) :=
    if bool_decide (Path_toString p = "/forbidden")
    then Some "Permission denied" else None in
  match c with
  | fs_getFileStatus _ p => refuse p
  | fs_open _ p _ => refuse p
  | fs_append _ p => refuse p
  | fs_create _ p _ _ _ _ => refuse p
  | _ => None
  end.

Definition sim_guarded : handler jstate :=
  fun R c st =>
    match sim_refusal c with
    | Some msg => (inr msg, st)
    | None => sim_java R c st
    end.

(** The five-byte file after stream 7 has been closed. *)
Definition sim_closed : World jstate :=
  mk_World (mk_jstate [104; -61; -87; 33; 10] 0 [7%nat] 8%nat)
           [Called (stream_close 7%nat)].

(** A handle without a stream. *)
Definition no_stream_handle : CoreHdfsFile.t :=
  CoreHdfsFile.mk O_RDONLY None CoreHdfsFile._INPUT None.

(** Three files and their modification times. *)
Definition sim_files : gmap string Z :=
  <["VERSION" := 200]> (<["pydoop/version.py" := 100]>
                          (<["DEFAULT_HADOOP_HOME" := 100]> ∅)).

(** ** Statements about runs *)

(** The Java side, in state [st], answers call [c] with [r] and moves to
    [st']. *)
Definition answers {W R} (java : handler W) (c : jcall R) (st : W)
    (r : R) (st' : W) : Prop :=
  java R c st = (inl r, st').

(** The Java side, in state [st], throws on call [c]. *)
Definition throws {W R} (java : handler W) (c : jcall R) (st : W) : Prop :=
  exists msg st', java R c st = (inr msg, st').

(** The run ended in an exception. *)
Definition fails {W A} (r : result A * World W) : Prop :=
  exists e w', r = (Raise e, w').

(** The world after [calls] more events, the Java side in state [st]. *)
Definition after {W} (w : World W) (st : W) (calls : list event) : World W :=
  mk_World st (trace w ++ calls).

(** The events a run added to the trace of [w]. *)
Definition new_events {W} (w w' : World W) : list event :=
  skipn (length (trace w)) (trace w').

(** The stream a [write] call is made on. *)
Definition write_target (e : event) : option jref :=
  match e with
  | Called c =>
      match c with
      | stream_write s _ => Some s
      | _ => None
      end
  | Logged _ _ => None
  end.

(** The stream an I/O call is made on; [close] is not counted. *)
Definition io_target {R} (c : jcall R) : option jref :=
  match c with
  | stream_read s _ => Some s
  | stream_pread s _ _ _ _ => Some s
  | stream_write s _ => Some s
  | stream_seek s _ => Some s
  | stream_getPos s => Some s
  | stream_available s => Some s
  | stream_flush s => Some s
  | _ => None
  end.

(** The user handed to [FileSystem.get]: [self._user] when it is true. *)
Definition supplied_user (self : CoreHdfsFs.t) : option string :=
  if truthy (CoreHdfsFs._user self) then CoreHdfsFs._user self else None.

(** "Writes go through the buffering wrapper": every [write] call that
    [write(data)] issues is made on [self._buffered_stream]. *)
Definition writes_through_wrapper {W} (java : handler W)
    (self : CoreHdfsFile.t) (data : string) (w : World W) : Prop :=
  forall s,
    In (Some s)
       (map write_target
            (new_events w (snd (CoreHdfsFile.write java self data w)))) ->
    CoreHdfsFile._buffered_stream self = Some s.

(** "After close succeeds every operation on the handle fails." *)
Definition invalid_after_close {W} (java : handler W) (BUFSIZE : Z)
    (self : CoreHdfsFile.t) (w : World W) : Prop :=
  forall w1,
    CoreHdfsFile.close java self w = (Ok tt, w1) ->
    (forall n, fails (CoreHdfsFile.read java BUFSIZE self n w1))
    /\ (forall c, fails (CoreHdfsFile.read_chunk java self c w1))
    /\ (forall p n, fails (CoreHdfsFile.pread java BUFSIZE self p n w1))
    /\ (forall p c, fails (CoreHdfsFile.pread_chunk java self p c w1))
    /\ (forall d, fails (CoreHdfsFile.write java self d w1))
    /\ (forall c, fails (CoreHdfsFile.write_chunk java self c w1))
    /\ (forall p, fails (CoreHdfsFile.seek java self p w1))
    /\ fails (CoreHdfsFile.tell java self w1)
    /\ fails (CoreHdfsFile.flush java self w1)
    /\ fails (CoreHdfsFile.close java self w1).

(** The calls of a metadata fetch on [jpath] that got [jstatus]. *)
Definition status_calls (fs : jref) (jpath : JPath) (jstatus : JFileStatus)
  : list event :=
  [Called (fs_getFileStatus fs jpath);
   Called (fs_isDirectory fs (getPath jstatus));
   Called (fs_getBlockSize fs (getPath jstatus));
   Called (fs_getUri_toString fs)].

(** The Java side answers every call of a metadata fetch on [jpath], the
    status being [jstatus], and goes from [st] to [st']. *)
Definition fetches {W} (java : handler W) (fs : jref) (jpath : JPath)
    (jstatus : JFileStatus) (st st' : W) : Prop :=
  exists isdir block_size uri st1 st2 st3,
    answers java (fs_getFileStatus fs jpath) st jstatus st1
    /\ answers java (fs_isDirectory fs (getPath jstatus)) st1 isdir st2
    /\ answers java (fs_getBlockSize fs (getPath jstatus)) st2 block_size st3
    /\ answers java (fs_getUri_toString fs) st3 uri st'.

(** The access mode that [open_file] masks out of the flags. *)
Definition accmode_of (flags : Z) : Z :=
  Z.land flags (Z.lor (Z.lor O_RDONLY O_RDWR) O_WRONLY).

(** The warning [open_file] logs on O_CREAT together with O_EXCL. *)
Definition warn_events (flags : Z) : list event :=
  if nonzero (Z.land flags O_CREAT) && nonzero (Z.land flags O_EXCL)
  then [Logged "warn" "hdfs does not truly support O_CREATE && O_EXCL"]
  else [].

(** An argument of [open_file] that falls back on a call when it is given
    as 0: the value [v] it resolves to, the Java side going from [st] to
    [st'], and the events this leaves. *)
Definition defaulted {W} (java : handler W) (given : Z) (c : jcall Z)
    (st : W) (v : Z) (st' : W) : Prop :=
  if given =? 0 then answers java c st v st' else v = given /\ st' = st.

Definition default_events (given : Z) (c : jcall Z) : list event :=
  if given =? 0 then [Called c] else [].

(** The world of the recording Java side after the calls [cs], of which
    the events [es] are traced, the Java side itself in state [st]. *)
Definition after_calls {W} (w : World (Bridge W)) (st : W)
    (cs : list bridge_event) (es : list event) : World (Bridge W) :=
  mk_World (mk_Bridge st (calls (jvm w) ++ cs)) (trace w ++ es).

(** The call is a fetch of a status. *)
Definition is_status_fetch (e : bridge_event) : bool :=
  match e with
  | CoreCall c =>
      match c with
      | fs_getFileStatus _ _ => true
      | _ => false
      end
  | FsCall _ => false
  end.

(** The outcome of a method that turns an empty path down in world [w]. *)
Definition refused {W A} (w : World W) : result A * World W :=
  (Raise (mk_exn ValueError "Empty path"), w).

(** * Properties *)

Section Marshaling.
Context {W : Type}.

Lemma unsigned_range (x : Z) : 0 <= (x + 256) mod 256 < 256.
Proof. apply Z.mod_pos_bound. lia. Qed.

Lemma unsigned_of_negative (x : Z) :
    -128 <= x <= -1 -> (x + 256) mod 256 = x + 256.
Proof. intros Hx. apply Z.mod_small. lia. Qed.

Lemma chr_unsigned (x : Z) (w : World W) :
    chr ((x + 256) mod 256) w
    = (Ok (String (Ascii.ascii_of_N (Z.to_N ((x + 256) mod 256))) ""), w).
Proof.
    unfold chr. pose proof (unsigned_range x) as [Hlo Hhi].
    apply Z.leb_le in Hlo. apply Z.ltb_lt in Hhi.
    rewrite Hlo, Hhi. reflexivity.
Qed.

Lemma ords_concat_cons (a : Ascii.ascii) (cs : list string) :
    ords (String.concat "" (String a "" :: cs))
    = Z.of_N (Ascii.N_of_ascii a) :: ords (String.concat "" cs).
Proof. destruct cs; reflexivity. Qed.

Lemma map_chr_unsigned (l : list Z) (w : World W) :
    exists cs,
      map_py (fun x => chr ((x + 256) mod 256)) l w = (Ok cs, w)
      /\ ords (String.concat "" cs) = map (fun x => (x + 256) mod 256) l.
Proof.
    induction l as [|x l IH].
    - exists []. split; reflexivity.
    - destruct IH as (cs & Hrun & Hords).
      exists (String (Ascii.ascii_of_N (Z.to_N ((x + 256) mod 256))) "" :: cs).
      split.
      + cbn [map_py]. unfold bind at 1. rewrite chr_unsigned.
        unfold bind at 1. rewrite Hrun. reflexivity.
      + rewrite ords_concat_cons, Hords. cbn [map]. f_equal.
        rewrite Ascii.N_ascii_embedding.
        * apply Z2N.id, unsigned_range.
        * pose proof (unsigned_range x). lia.
Qed.

  (** The marshaling expression never raises, and the codes of the string it
      builds are the elements of [buf[:read]], each brought into 0..255. *)
Lemma marshal_unsigned (buf : list Z) (read : Z) (w : World W) :
    exists s,
      marshal buf read w = (Ok s, w)
      /\ ords s = map (fun x => (x + 256) mod 256) (slice_to buf read).
Proof.
    destruct (map_chr_unsigned (slice_to buf read) w) as (cs & Hrun & Hords).
    exists (String.concat "" cs). split; [|exact Hords].
    unfold marshal, bind. rewrite Hrun. reflexivity.
Qed.
End Marshaling.

(** ** Runs of single steps *)

Section Steps.
Context {W : Type}.
Variable java : handler W.

Lemma after_after (w : World W) (st1 st2 : W) (l1 l2 : list event) :
  after (after w st1 l1) st2 l2 = after w st2 (l1 ++ l2).
Proof. unfold after. cbn [trace]. rewrite <- app_assoc. reflexivity. Qed.

Lemma invoke_answers {R} (c : jcall R) (w : World W) (r : R) (st' : W) :
  answers java c (jvm w) r st' ->
  invoke java c w = (Ok r, after w st' [Called c]).
Proof. unfold answers, invoke. intros ->. reflexivity. Qed.

Lemma invoke_throws {R} (c : jcall R) (w : World W) :
  throws java c (jvm w) -> fails (invoke java c w).
Proof.
  unfold invoke. intros (msg & st' & ->).
  eexists _, _. reflexivity.
Qed.

Lemma bind_ok {A B} (m : M W A) (k : A -> M W B) (w w' : World W) (a : A) :
  m w = (Ok a, w') -> bind m k w = k a w'.
Proof. unfold bind. intros ->. reflexivity. Qed.

Lemma bind_fails {A B} (m : M W A) (k : A -> M W B) (w : World W) :
  fails (m w) -> fails (bind m k w).
Proof.
  unfold bind. intros (e & w' & ->). eexists _, _. reflexivity.
Qed.

Lemma try_ok {A} (m : M W A) (h : pyexn -> M W A) (w w' : World W) (a : A) :
  m w = (Ok a, w') -> try_except m h w = (Ok a, w').
Proof. unfold try_except. intros ->. reflexivity. Qed.

(** A handler that re-raises turns a failure into a failure. *)
Lemma try_reraise_fails {A} (m : M W A) (c : exn_class) (w : World W) :
  fails (m w) ->
  fails (try_except m (fun e => raise c (message e)) w).
Proof.
  unfold try_except. intros (e & w' & ->). eexists _, _. reflexivity.
Qed.

End Steps.

(** ** The file handle *)

Section FileHandle.
Context {W : Type}.
Variable java : handler W.
Variable BUFSIZE : Z.

Import CoreHdfsFile.

(** What the four read variants do once the guard is passed and the Java
    side has allocated the buffer and answered the read. *)

Lemma read_run (self : t) (stream : jref) (w : World W) (length : Z)
    (buf0 buf : list Z) (n : Z) (st1 st2 : W) :
  _stream self = Some stream ->
  _stream_type self = _INPUT ->
  answers java
    (ByteBuffer_allocate_array (if length =? -1 then BUFSIZE else length))
    (jvm w) buf0 st1 ->
  answers java (stream_read stream buf0) st1 (n, buf) st2 ->
  read java BUFSIZE self length w
  = (if n =? -1 then ret "" else marshal buf n)
      (after w st2
         [Called (ByteBuffer_allocate_array
                    (if length =? -1 then BUFSIZE else length));
          Called (stream_read stream buf0)]).
Proof.
  intros Hs Ht Ha Hr. unfold read. rewrite Hs, Ht. cbn [Z.eqb negb _INPUT].
  unfold try_except.
  rewrite (bind_ok _ _ _ _ _ (invoke_answers java _ _ _ _ Ha)).
  rewrite (bind_ok _ _ (after w st1 _) _ _
             (invoke_answers java _ (after w st1 _) _ _ Hr)).
  rewrite after_after. cbn [app].
  destruct (n =? -1).
  - reflexivity.
  - destruct (marshal_unsigned buf n
                (after w st2
                   [Called (ByteBuffer_allocate_array
                              (if length =? -1 then BUFSIZE else length));
                    Called (stream_read stream buf0)])) as (s & -> & _).
    reflexivity.
Qed.

Lemma read_chunk_run (self : t) (stream : jref) (w : World W)
    (chunk : Chunk) (buf0 buf : list Z) (n : Z) (st1 st2 : W) :
  _stream self = Some stream ->
  _stream_type self = _INPUT ->
  answers java (ByteBuffer_allocate_array (chunk_len chunk)) (jvm w)
          buf0 st1 ->
  answers java (stream_read stream buf0) st1 (n, buf) st2 ->
  read_chunk java self chunk w
  = (if n =? -1 then ret (VStr "", chunk)
     else bind (marshal buf n) (fun v => ret (VInt n, set_value chunk v)))
      (after w st2
         [Called (ByteBuffer_allocate_array (chunk_len chunk));
          Called (stream_read stream buf0)]).
Proof.
  intros Hs Ht Ha Hr. unfold read_chunk. rewrite Hs, Ht.
  cbn [Z.eqb negb _INPUT]. unfold try_except.
  rewrite (bind_ok _ _ _ _ _ (invoke_answers java _ _ _ _ Ha)).
  rewrite (bind_ok _ _ (after w st1 _) _ _
             (invoke_answers java _ (after w st1 _) _ _ Hr)).
  rewrite after_after. cbn [app].
  destruct (n =? -1).
  - reflexivity.
  - unfold bind.
    destruct (marshal_unsigned buf n
                (after w st2
                   [Called (ByteBuffer_allocate_array (chunk_len chunk));
                    Called (stream_read stream buf0)])) as (s & -> & _).
    reflexivity.
Qed.

Lemma pread_run (self : t) (stream : jref) (w : World W)
    (position length : Z) (buf0 buf : list Z) (n : Z) (st1 st2 : W) :
  _stream self = Some stream ->
  _stream_type self = _INPUT ->
  answers java
    (ByteBuffer_allocate_array (if length =? -1 then BUFSIZE else length))
    (jvm w) buf0 st1 ->
  answers java
    (stream_pread stream position buf0 0
                  (if length =? -1 then BUFSIZE else length))
    st1 (n, buf) st2 ->
  pread java BUFSIZE self position length w
  = marshal buf n
      (after w st2
         [Called (ByteBuffer_allocate_array
                    (if length =? -1 then BUFSIZE else length));
          Called (stream_pread stream position buf0 0
                    (if length =? -1 then BUFSIZE else length))]).
Proof.
  intros Hs Ht Ha Hr. unfold pread. rewrite Hs, Ht.
  cbn [Z.eqb negb _INPUT]. unfold try_except.
  rewrite (bind_ok _ _ _ _ _ (invoke_answers java _ _ _ _ Ha)).
  rewrite (bind_ok _ _ (after w st1 _) _ _
             (invoke_answers java _ (after w st1 _) _ _ Hr)).
  rewrite after_after. cbn [app].
  destruct (marshal_unsigned buf n
              (after w st2
                 [Called (ByteBuffer_allocate_array
                            (if length =? -1 then BUFSIZE else length));
                  Called (stream_pread stream position buf0 0
                            (if length =? -1 then BUFSIZE else length))]))
    as (s & -> & _).
  reflexivity.
Qed.

Lemma pread_chunk_run (self : t) (stream : jref) (w : World W)
    (position : Z) (chunk : Chunk) (buf0 buf : list Z) (n : Z)
    (st1 st2 : W) :
  _stream self = Some stream ->
  _stream_type self = _INPUT ->
  answers java (ByteBuffer_allocate_array (chunk_len chunk)) (jvm w)
          buf0 st1 ->
  answers java (stream_pread stream position buf0 0 (chunk_len chunk))
          st1 (n, buf) st2 ->
  pread_chunk java self position chunk w
  = bind (marshal buf n) (fun v => ret (n, set_value chunk v))
      (after w st2
         [Called (ByteBuffer_allocate_array (chunk_len chunk));
          Called (stream_pread stream position buf0 0 (chunk_len chunk))]).
Proof.
  intros Hs Ht Ha Hr. unfold pread_chunk. rewrite Hs, Ht.
  cbn [Z.eqb negb _INPUT]. unfold try_except.
  rewrite (bind_ok _ _ _ _ _ (invoke_answers java _ _ _ _ Ha)).
  rewrite (bind_ok _ _ (after w st1 _) _ _
             (invoke_answers java _ (after w st1 _) _ _ Hr)).
  rewrite after_after. cbn [app]. unfold bind.
  destruct (marshal_unsigned buf n
              (after w st2
                 [Called (ByteBuffer_allocate_array (chunk_len chunk));
                  Called (stream_pread stream position buf0 0
                            (chunk_len chunk))])) as (s & -> & _).
  reflexivity.
Qed.

(** C9: on each of the four read variants, once the Java side has allocated
    the buffer and answered the read with a count [n] and the buffer [buf]
    (for [read] and [read_chunk]: a count other than -1), the method
    succeeds and the codes of the bytes it returns are the elements of
    [buf[:n]] each taken to [(x + 256) mod 256]; for the chunk variants
    these bytes are the new value of the caller's chunk, whose size is as
    before.  That value lies in 0..255, and a signed byte in -128..-1 goes
    to 128..255. *)
Theorem read_variants_normalize_bytes
    (self : t) (stream : jref) (w : World W) :
  _stream self = Some stream ->
  _stream_type self = _INPUT ->
  (forall length buf0 buf n st1 st2,
      let size := if length =? -1 then BUFSIZE else length in
      answers java (ByteBuffer_allocate_array size) (jvm w) buf0 st1 ->
      answers java (stream_read stream buf0) st1 (n, buf) st2 ->
      n <> -1 ->
      exists s,
        read java BUFSIZE self length w
        = (Ok s, after w st2 [Called (ByteBuffer_allocate_array size);
                               Called (stream_read stream buf0)])
        /\ ords s = map (fun x => (x + 256) mod 256) (slice_to buf n))
  /\ (forall chunk buf0 buf n st1 st2,
      let size := chunk_len chunk in
      answers java (ByteBuffer_allocate_array size) (jvm w) buf0 st1 ->
      answers java (stream_read stream buf0) st1 (n, buf) st2 ->
      n <> -1 ->
      exists s,
        read_chunk java self chunk w
        = (Ok (VInt n, mk_Chunk (chunk_len chunk) s),
           after w st2 [Called (ByteBuffer_allocate_array size);
                        Called (stream_read stream buf0)])
        /\ ords s = map (fun x => (x + 256) mod 256) (slice_to buf n))
  /\ (forall position length buf0 buf n st1 st2,
      let size := if length =? -1 then BUFSIZE else length in
      answers java (ByteBuffer_allocate_array size) (jvm w) buf0 st1 ->
      answers java (stream_pread stream position buf0 0 size) st1
              (n, buf) st2 ->
      exists s,
        pread java BUFSIZE self position length w
        = (Ok s, after w st2
                   [Called (ByteBuffer_allocate_array size);
                    Called (stream_pread stream position buf0 0 size)])
        /\ ords s = map (fun x => (x + 256) mod 256) (slice_to buf n))
  /\ (forall position chunk buf0 buf n st1 st2,
      let size := chunk_len chunk in
      answers java (ByteBuffer_allocate_array size) (jvm w) buf0 st1 ->
      answers java (stream_pread stream position buf0 0 size) st1
              (n, buf) st2 ->
      exists s,
        pread_chunk java self position chunk w
        = (Ok (n, mk_Chunk (chunk_len chunk) s),
           after w st2
             [Called (ByteBuffer_allocate_array size);
              Called (stream_pread stream position buf0 0 size)])
        /\ ords s = map (fun x => (x + 256) mod 256) (slice_to buf n))
  /\ (forall x, 0 <= (x + 256) mod 256 <= 255)
  /\ (forall x, -128 <= x <= -1 ->
                (x + 256) mod 256 = x + 256 /\ 128 <= x + 256 <= 255).
Proof.
  intros Hs Ht. repeat split.
  - intros length buf0 buf n st1 st2 size Ha Hr Hn.
    rewrite (read_run self stream w length buf0 buf n st1 st2 Hs Ht Ha Hr).
    apply Z.eqb_neq in Hn. rewrite Hn.
    destruct (marshal_unsigned buf n
                (after w st2 [Called (ByteBuffer_allocate_array size);
                              Called (stream_read stream buf0)]))
      as (s & Hm & Ho).
    exists s. split; assumption.
  - intros chunk buf0 buf n st1 st2 size Ha Hr Hn.
    rewrite (read_chunk_run self stream w chunk buf0 buf n st1 st2
               Hs Ht Ha Hr).
    apply Z.eqb_neq in Hn. rewrite Hn.
    destruct (marshal_unsigned buf n
                (after w st2 [Called (ByteBuffer_allocate_array size);
                              Called (stream_read stream buf0)]))
      as (s & Hm & Ho).
    exists s. split; [|exact Ho]. unfold bind. fold size. rewrite Hm.
    reflexivity.
  - intros position length buf0 buf n st1 st2 size Ha Hr.
    rewrite (pread_run self stream w position length buf0 buf n st1 st2
               Hs Ht Ha Hr).
    apply marshal_unsigned.
  - intros position chunk buf0 buf n st1 st2 size Ha Hr.
    rewrite (pread_chunk_run self stream w position chunk buf0 buf n
               st1 st2 Hs Ht Ha Hr).
    destruct (marshal_unsigned buf n
                (after w st2
                   [Called (ByteBuffer_allocate_array size);
                    Called (stream_pread stream position buf0 0 size)]))
      as (s & Hm & Ho).
    exists s. split; [|exact Ho]. unfold bind. fold size. rewrite Hm.
    reflexivity.
  - apply unsigned_range.
  - pose proof (unsigned_range x). lia.
  - apply unsigned_of_negative. assumption.
  - lia.
  - lia.
Qed.

(** C10: when the Java side answers the read of [read_chunk] with -1,
    [read_chunk] returns the empty string, not a count, and leaves the chunk
    as it was; on any other count [n] it returns the integer [n] and the
    chunk, of the same size, has the marshaled bytes of [buf[:n]] as its
    new value in place of the old one. *)
Theorem read_chunk_end_of_stream
    (self : t) (stream : jref) (w : World W) (chunk : Chunk)
    (buf0 buf : list Z) (n : Z) (st1 st2 : W) :
  _stream self = Some stream ->
  _stream_type self = _INPUT ->
  answers java (ByteBuffer_allocate_array (chunk_len chunk)) (jvm w)
          buf0 st1 ->
  answers java (stream_read stream buf0) st1 (n, buf) st2 ->
  let w' := after w st2 [Called (ByteBuffer_allocate_array (chunk_len chunk));
                         Called (stream_read stream buf0)] in
  (n = -1 -> read_chunk java self chunk w = (Ok (VStr "", chunk), w'))
  /\ (n <> -1 ->
      exists s,
        read_chunk java self chunk w
        = (Ok (VInt n, mk_Chunk (chunk_len chunk) s), w')
        /\ ords s = map (fun x => (x + 256) mod 256) (slice_to buf n)).
Proof.
  intros Hs Ht Ha Hr w'.
  rewrite (read_chunk_run self stream w chunk buf0 buf n st1 st2 Hs Ht Ha Hr).
  fold w'. split.
  - intros ->. reflexivity.
  - intros Hn. apply Z.eqb_neq in Hn. rewrite Hn.
    destruct (marshal_unsigned buf n w') as (s & Hm & Ho).
    exists s. split; [|exact Ho]. unfold bind. rewrite Hm. reflexivity.
Qed.

Lemma slice_zeros_end (k : nat) :
  slice_to (repeat 0 (S k)) (-1) = repeat 0 k.
Proof.
  unfold slice_to. cbn [Z.ltb Z.compare]. rewrite repeat_length.
  replace (Z.to_nat (Z.max 0 (Z.of_nat (S k) + -1))) with k by lia.
  induction k as [|k IH]; [reflexivity|].
  cbn [repeat firstn] in *. f_equal. exact IH.
Qed.

Lemma unsigned_zeros (k : nat) :
  map (fun x => (x + 256) mod 256) (repeat 0 k) = repeat 0 k.
Proof. induction k as [|k IH]; [reflexivity|]. cbn [repeat map]. f_equal. exact IH. Qed.

(** C1 (what the code does at the end of the stream): when the positional
    read answers -1 and leaves the zero-filled buffer of [k + 1] bytes as
    allocated, [pread] returns [k] NUL bytes, and [pread_chunk] assigns
    those [k] NUL bytes to the chunk and returns -1: the count -1 is used
    as the slice bound [buf[:-1]], there is no test for it as in [read]. *)
Theorem pread_end_of_stream_returns_zeros
    (self : t) (stream : jref) (w : World W) (k : nat) (st1 st2 : W) :
  _stream self = Some stream ->
  _stream_type self = _INPUT ->
  let size := Z.of_nat (S k) in
  answers java (ByteBuffer_allocate_array size) (jvm w)
          (repeat 0 (S k)) st1 ->
  (forall position,
      answers java (stream_pread stream position (repeat 0 (S k)) 0 size)
              st1 (-1, repeat 0 (S k)) st2 ->
      exists s,
        ords s = repeat 0 k
        /\ pread java BUFSIZE self position size w
           = (Ok s, after w st2
                      [Called (ByteBuffer_allocate_array size);
                       Called (stream_pread stream position
                                            (repeat 0 (S k)) 0 size)])
        /\ forall chunk,
            chunk_len chunk = size ->
            pread_chunk java self position chunk w
            = (Ok (-1, set_value chunk s),
               after w st2
                 [Called (ByteBuffer_allocate_array size);
                  Called (stream_pread stream position
                                       (repeat 0 (S k)) 0 size)])).
Proof.
  intros Hs Ht size Ha position Hr.
  assert (Hsize : (if size =? -1 then BUFSIZE else size) = size).
  { destruct (Z.eqb_spec size (-1)); [lia | reflexivity]. }
  destruct (marshal_unsigned (repeat 0 (S k)) (-1)
              (after w st2
                 [Called (ByteBuffer_allocate_array size);
                  Called (stream_pread stream position
                                       (repeat 0 (S k)) 0 size)]))
    as (s & Hm & Ho).
  rewrite slice_zeros_end, unsigned_zeros in Ho.
  exists s. split; [exact Ho|]. split.
  - rewrite (pread_run self stream w position size (repeat 0 (S k))
               (repeat 0 (S k)) (-1) st1 st2 Hs Ht);
      rewrite ?Hsize; assumption.
  - intros chunk Hlen.
    rewrite (pread_chunk_run self stream w position chunk (repeat 0 (S k))
               (repeat 0 (S k)) (-1) st1 st2 Hs Ht);
      rewrite ?Hlen; try assumption.
    unfold bind. rewrite Hm. reflexivity.
Qed.

(** C8: on an OUTPUT handle with a stream, [_write] with a negative length
    raises IOError before any call; with length 0 it returns 0 and issues no
    call; with a length [L > 0], once the Java side has taken the bytes, it
    returns [L].  [write] and [write_chunk] pass the length of their data,
    which is never negative. *)
Theorem write_returns_length
    (self : t) (stream : jref) (w : World W) (data : string) :
  _stream self = Some stream ->
  _stream_type self = _OUTPUT ->
  (forall length, length < 0 ->
      _write java self data length w = (Raise (mk_exn IOError ""), w))
  /\ _write java self data 0 w = (Ok 0, w)
  /\ (forall length bytes st1 st2,
      0 < length ->
      answers java (jbytearray data) (jvm w) bytes st1 ->
      answers java (stream_write stream bytes) st1 tt st2 ->
      _write java self data length w
      = (Ok length, after w st2 [Called (jbytearray data);
                                 Called (stream_write stream bytes)]))
  /\ write java self data w = _write java self data (len data) w
  /\ write_chunk java self (mk_Chunk (len data) data) w
     = _write java self data (len data) w
  /\ 0 <= len data
  /\ write java self "" w = (Ok 0, w).
Proof.
  intros Hs Ht. repeat split.
  - intros length Hneg. unfold _write. rewrite Hs, Ht.
    cbn [Z.eqb Pos.eqb negb _OUTPUT]. apply Z.ltb_lt in Hneg. rewrite Hneg.
    reflexivity.
  - unfold _write. rewrite Hs, Ht. reflexivity.
  - intros length bytes st1 st2 Hpos Hb Hw. unfold _write. rewrite Hs, Ht.
    cbn [Z.eqb Pos.eqb negb _OUTPUT].
    assert (Hnn : (length <? 0) = false) by (apply Z.ltb_ge; lia).
    apply Z.ltb_lt in Hpos. rewrite Hnn, Hpos.
    rewrite (bind_ok _ _ w
               (after w st2 [Called (jbytearray data);
                             Called (stream_write stream bytes)]) tt).
    + reflexivity.
    + rewrite (bind_ok _ _ _ _ _ (invoke_answers java _ _ _ _ Hb)).
      rewrite (invoke_answers java _ (after w st1 _) _ _ Hw).
      rewrite after_after. reflexivity.
  - unfold len. lia.
  - unfold write, _write. rewrite Hs, Ht. reflexivity.
Qed.

Lemma new_events_after (w : World W) (st : W) (l : list event) :
  new_events w (after w st l) = l.
Proof. unfold new_events, after. cbn [trace]. apply drop_app_length. Qed.

Lemma new_events_mk (w : World W) (st : W) (l : list event) :
  new_events w (mk_World st (trace w ++ l)) = l.
Proof. apply new_events_after. Qed.

Lemma new_events_none (w : World W) : new_events w w = [].
Proof. unfold new_events. apply drop_all. Qed.

Lemma len_positive (data : string) : data <> "" -> (0 <? len data) = true.
Proof.
  intros Hne. apply Z.ltb_lt. destruct data as [|a data]; [congruence|].
  unfold len. cbn [String.length]. lia.
Qed.

(** C2 (as the code has it): on an OUTPUT handle every [write] call that
    [write(data)] issues is made on the raw stream [self._stream]; for
    non-empty data whose conversion to a byte array succeeds, the calls are
    that conversion and one [write] of the bytes on the raw stream.  No
    call involves [self._buffered_stream].  [write_chunk] is [write] on the
    chunk's value. *)
Theorem write_goes_to_raw_stream
    (self : t) (stream : jref) (w : World W) (data : string) :
  _stream self = Some stream ->
  _stream_type self = _OUTPUT ->
  let w' := snd (write java self data w) in
  (forall s, In (Some s) (map write_target (new_events w w')) -> s = stream)
  /\ (forall bytes st1,
        data <> "" ->
        answers java (jbytearray data) (jvm w) bytes st1 ->
        new_events w w' = [Called (jbytearray data);
                           Called (stream_write stream bytes)])
  /\ (forall chunk,
        write_chunk java self chunk w = write java self (value chunk) w).
Proof.
  intros Hs Ht w'. subst w'.
  assert (Hnn : (len data <? 0) = false) by (apply Z.ltb_ge; unfold len; lia).
  split; [|split; [|reflexivity]];
    unfold write, _write; rewrite Hs, Ht;
    cbn [Z.eqb Pos.eqb negb _OUTPUT]; rewrite Hnn.
  - intros s. destruct (0 <? len data).
    + unfold bind, invoke.
      destruct (java _ (jbytearray data) (jvm w)) as [[bytes|msg] st1].
      * cbn [jvm trace].
        destruct (java _ (stream_write stream bytes) st1) as [[[]|msg] st2];
          unfold ret; cbn [snd]; rewrite <- app_assoc, new_events_mk; cbn;
          intros [H|[H|[]]]; congruence.
      * cbn [snd]. rewrite new_events_mk. cbn. intros [H|[]]; congruence.
    + unfold bind, ret. cbn [snd]. rewrite new_events_none. intros [].
  - intros bytes st1 Hne Hb. rewrite (len_positive data Hne).
    unfold bind, invoke. rewrite Hb. cbn [jvm trace].
    destruct (java _ (stream_write stream bytes) st1) as [[[]|msg] st2];
      unfold ret; cbn [snd]; rewrite <- app_assoc; apply new_events_mk.
Qed.

(** *** A handle after [close] *)

Section Closed.
Variable stream : jref.

(** [dead st]: in state [st] the Java side holds [stream] closed.  It does
    so once it has answered [close], it never reopens a stream, and it
    throws on every I/O call made on a closed stream. *)
Variable dead : W -> Prop.
Hypothesis close_kills :
  forall st st', answers java (stream_close stream) st tt st' -> dead st'.
Hypothesis dead_stays :
  forall st R (c : jcall R), dead st -> dead (snd (java R c st)).
Hypothesis dead_throws :
  forall st R (c : jcall R),
    dead st -> io_target c = Some stream -> throws java c st.

Lemma close_ok_dead (self : t) (w w1 : World W) :
  _stream self = Some stream ->
  close java self w = (Ok tt, w1) -> dead (jvm w1).
Proof.
  intros Hs. unfold close, try_except, invoke, raise. rewrite Hs.
  destruct (java _ (stream_close stream) (jvm w)) as [[[]|msg] st] eqn:E;
    intros [= <-]. cbn [jvm]. exact (close_kills _ _ E).
Qed.

Lemma io_fails {R} (c : jcall R) (w : World W) :
  dead (jvm w) -> io_target c = Some stream -> fails (invoke java c w).
Proof. intros Hd Hc. apply invoke_throws, dead_throws; assumption. Qed.

(** A call followed by a step that fails once the stream is dead. *)
Lemma then_dead_fails {A C} (c0 : jcall A) (k : A -> M W C) (w : World W) :
  dead (jvm w) ->
  (forall a w', dead (jvm w') -> fails (k a w')) ->
  fails (bind (invoke java c0) k w).
Proof.
  intros Hd Hk. unfold bind.
  destruct (invoke java c0 w) as [[a|e] w0] eqn:E.
  - apply Hk. unfold invoke in E. pose proof (dead_stays _ _ c0 Hd) as Hd0.
    destruct (java _ c0 (jvm w)) as [[a'|msg] st]; injection E as _ <-;
      exact Hd0.
  - eexists _, _. reflexivity.
Qed.

Lemma raise_fails {A} (c : exn_class) (msg : string) (w : World W) :
  fails (raise (A:=A) c msg w).
Proof. eexists _, _. reflexivity. Qed.


End Closed.

End FileHandle.

(** ** The filesystem handle *)

Section FsHandle.
Context {W : Type}.
Variable java : handler W.

Import CoreHdfsFs.

(** C6: whatever the other arguments and the other bits of [flags], when
    the access mode masked out of [flags] is neither O_WRONLY nor O_RDONLY,
    [open_file] raises IOError and leaves the world as it was: no call has
    crossed the bridge, so no stream was opened.  The message names
    O_RDWR when the mode is O_RDWR and the mode's number otherwise. *)
Theorem open_file_rejects_other_accmodes
    (self : t) (path : string)
    (flags buff_size replication blocksize readline_chunk_size : Z)
    (w : World W) :
  let accmode := Z.land flags (Z.lor (Z.lor O_RDONLY O_RDWR) O_WRONLY) in
  accmode <> O_WRONLY ->
  accmode <> O_RDONLY ->
  open_file java self path flags buff_size replication blocksize
            readline_chunk_size w
  = (Raise (mk_exn IOError
              (if accmode =? O_RDWR
               then "Cannot open an hdfs file in O_RDWR mode"
               else "Cannot open an hdfs file in mode "
                      +:+ str_of_int accmode)),
     w).
Proof.
  intros accmode Hw Hr. unfold open_file. fold accmode.
  apply Z.eqb_neq in Hw, Hr. rewrite Hw, Hr. cbn [negb andb].
  destruct (accmode =? O_RDWR); reflexivity.
Qed.

(** The metadata fetch, once the Java side has answered its calls: the
    entries of the record that the claims below read. *)
Lemma get_jpath_info_fetch (self : t) (fs : jref) (jpath : JPath)
    (jstatus : JFileStatus) (w : World W) (st' : W) :
  _fs self = Some fs ->
  fetches java fs jpath jstatus (jvm w) st' ->
  exists info,
    _get_jpath_info java self jpath None w
    = (Ok info, after w st' (status_calls fs jpath jstatus))
    /\ info !! "owner" = Some (VStr (getOwner jstatus))
    /\ info !! "group" = Some (VStr (getGroup jstatus))
    /\ info !! "last_mod"
       = Some (VInt (Long_intValue (getModificationTime jstatus)))
    /\ info !! "last_access"
       = Some (VInt (Long_intValue (getAccessTime jstatus))).
Proof.
  intros Hfs (isdir & bs & uri & st1 & st2 & st3 & H1 & H2 & H3 & H4).
  unfold answers in H1, H2, H3, H4.
  unfold _get_jpath_info, the_fs, bind, try_except, ret, invoke.
  rewrite Hfs. cbn [jvm trace]. rewrite H1. cbn [jvm trace].
  rewrite H2. cbn [jvm trace]. rewrite H3. cbn [jvm trace].
  rewrite H4. cbn [jvm trace]. unfold after, status_calls.
  rewrite <- !app_assoc. cbn [app].
  eexists. split; [reflexivity|].
  destruct (Path_getParent (getPath jstatus)), isdir;
    repeat split; simplify_map_eq; reflexivity.
Qed.

Lemma Long_intValue_id (t : Z) :
  Long_intValue t = t <-> - 2 ^ 31 <= t < 2 ^ 31.
Proof.
  unfold Long_intValue. split.
  - intros H. pose proof (Z.mod_pos_bound (t + 2 ^ 31) (2 ^ 32)). lia.
  - intros H. rewrite Z.mod_small; lia.
Qed.

(** C3 (what the code does with the timestamps): in the record that
    [get_path_info] returns, [last_mod] and [last_access] are the status'
    times after [Long.valueOf(..).intValue()], that is narrowed to a signed
    32-bit integer; the time is carried through unchanged exactly when it
    lies in -2^31 .. 2^31 - 1. *)
Theorem timestamps_narrowed_to_32_bits
    (self : t) (fs : jref) (path : string) (jpath : JPath)
    (jstatus : JFileStatus) (w : World W) (st1 st' : W) :
  _fs self = Some fs ->
  path <> "" ->
  answers java (Path_new path) (jvm w) jpath st1 ->
  fetches java fs jpath jstatus st1 st' ->
  (exists info,
      get_path_info java self path w
      = (Ok info,
         after w st' (Called (Path_new path)
                        :: status_calls fs jpath jstatus))
      /\ info !! "last_mod"
         = Some (VInt (Long_intValue (getModificationTime jstatus)))
      /\ info !! "last_access"
         = Some (VInt (Long_intValue (getAccessTime jstatus))))
  /\ (forall t, Long_intValue t = t <-> - 2 ^ 31 <= t < 2 ^ 31).
Proof.
  intros Hfs Hne Hp Hf. split; [|exact Long_intValue_id].
  destruct (get_jpath_info_fetch self fs jpath jstatus
              (after w st1 [Called (Path_new path)]) st' Hfs Hf)
    as (info & Hrun & _ & _ & Hm & Ha).
  exists info. split; [|split; assumption].
  unfold get_path_info, get_jpath.
  rewrite bool_decide_eq_false_2 by exact Hne.
  rewrite (bind_ok _ _ _ _ _ (invoke_answers java _ _ _ _ Hp)).
  rewrite Hrun, after_after. reflexivity.
Qed.

(** C7: [chown] with both [user] and [group] empty or None raises
    [Exception] before any call.  Otherwise, on a non-empty path, the
    current metadata of the path is fetched first, and [setOwner] is then
    called with the user and the group, each one replaced by the owner, or
    the group, of the fetched status when it was given empty or None. *)
Theorem chown_fills_absent_from_current
    (self : t) (fs : jref) (path : string) (user group : pyval)
    (w : World W) :
  _fs self = Some fs ->
  (is_none_or_empty user = true ->
   is_none_or_empty group = true ->
   chown java self path user group w
   = (Raise (mk_exn Exception "Both owner and group cannot be null in chown"),
      w))
  /\ (forall jpath jstatus st1 st',
      is_none_or_empty user && is_none_or_empty group = false ->
      path <> "" ->
      answers java (Path_new path) (jvm w) jpath st1 ->
      fetches java fs jpath jstatus st1 st' ->
      chown java self path user group w
      = invoke java
          (fs_setOwner fs jpath
             (if is_none_or_empty user
              then VStr (getOwner jstatus) else user)
             (if is_none_or_empty group
              then VStr (getGroup jstatus) else group))
          (after w st' (Called (Path_new path)
                          :: status_calls fs jpath jstatus))).
Proof.
  intros Hfs. split.
  - intros Hu Hg. unfold chown. rewrite Hu, Hg. reflexivity.
  - intros jpath jstatus st1 st' Hboth Hne Hp Hf.
    destruct (get_jpath_info_fetch self fs jpath jstatus
                (after w st1 [Called (Path_new path)]) st' Hfs Hf)
      as (info & Hrun & Ho & Hg & _).
    rewrite after_after in Hrun. cbn [app] in Hrun.
    unfold chown, get_jpath. rewrite Hboth.
    rewrite bool_decide_eq_false_2 by exact Hne.
    rewrite (bind_ok _ _ _ _ _ (invoke_answers java _ _ _ _ Hp)).
    rewrite (bind_ok _ _ _ _ _ Hrun).
    unfold getitem, the_fs. rewrite Ho, Hg, Hfs.
    destruct (is_none_or_empty user), (is_none_or_empty group);
      reflexivity.
Qed.

(** C5: [_connect] takes one of three branches, tried in this order.  An
    absent or empty host: [FileSystem.getLocal], whatever the port.  Host
    "default" and port 0: [FileSystem.getDefaultUri], then
    [FileSystem.get] on that URI, as [self._user] when it is given.
    Otherwise: [URI.create] on "hdfs://host:port", then [FileSystem.get] on
    that URI, as [self._user] when it is given. *)
Theorem connect_resolves_by_three_branches (self : t) (w : World W) :
  let conf := _configuration self in
  (none_or_empty (_host self) = true ->
   _connect java self w
   = (fs <- invoke java (FileSystem_getLocal conf);;
      ret (set_fs self fs)) w)
  /\ (_host self = Some "default" ->
      _port self = 0 ->
      _connect java self w
      = (uri <- invoke java (FileSystem_getDefaultUri conf);;
         fs <- invoke java (FileSystem_get uri conf (supplied_user self));;
         ret (set_fs (set_fs_uri self uri) fs)) w)
  /\ (forall host,
      _host self = Some host ->
      host <> "" ->
      ~ (host = "default" /\ _port self = 0) ->
      _connect java self w
      = (uri <- invoke java
                  (URI_create ("hdfs://" +:+ host +:+ ":"
                                 +:+ str_of_int (_port self)));;
         fs <- invoke java (FileSystem_get uri conf (supplied_user self));;
         ret (set_fs (set_fs_uri self uri) fs)) w).
Proof.
  intros conf. subst conf. unfold _connect, supplied_user. repeat split.
  - intros ->. reflexivity.
  - intros Hh Hp. rewrite Hh, Hp. cbn [none_or_empty].
    rewrite bool_decide_eq_false_2 by discriminate.
    rewrite bool_decide_eq_true_2 by reflexivity. cbn [andb Z.eqb].
    unfold bind. destruct (invoke java _ w) as [[uri|e] w1]; [|reflexivity].
    cbn. destruct (truthy (_user self)); reflexivity.
  - intros host Hh Hne Hnot. rewrite Hh. cbn [none_or_empty default].
    rewrite bool_decide_eq_false_2 by exact Hne.
    assert (Hb : bool_decide (Some host = Some "default") && (_port self =? 0)
                 = false).
    { apply andb_false_iff.
      destruct (decide (host = "default")) as [->|Hd].
      - right. apply Z.eqb_neq. intros Hp. apply Hnot. split; [reflexivity|exact Hp].
      - left. apply bool_decide_eq_false_2. congruence. }
    rewrite Hb.
    unfold bind. destruct (invoke java _ w) as [[uri|e] w1]; [|reflexivity].
    cbn. destruct (truthy (_user self)); reflexivity.
Qed.

End FsHandle.

(** ** The properties on the small Java side *)

Lemma read_variants_normalize_bytes_witness :
  (exists s w',
      CoreHdfsFile.read sim_java 16384 input_handle 4 sim_at_start
      = (Ok s, w')
      /\ ords s = [104; 195; 169; 33])
  /\ (exists c w',
        CoreHdfsFile.read_chunk sim_java input_handle (mk_Chunk 4 "abcd")
                                sim_at_start
        = (Ok (VInt 4, c), w')
        /\ chunk_len c = 4
        /\ ords (value c) = [104; 195; 169; 33])
  /\ (exists s w',
        CoreHdfsFile.pread sim_java 16384 input_handle 1 3 sim_at_start
        = (Ok s, w')
        /\ ords s = [195; 169; 33])
  /\ (exists c w',
        CoreHdfsFile.pread_chunk sim_java input_handle 1 (mk_Chunk 3 "xyz")
                                 sim_at_start
        = (Ok (3, c), w')
        /\ chunk_len c = 3
        /\ ords (value c) = [195; 169; 33]).
Proof.
  destruct (read_variants_normalize_bytes sim_java 16384 input_handle 7%nat
              sim_at_start eq_refl eq_refl)
    as (Hread & Hread_chunk & Hpread & Hpread_chunk & _).
  split; [|split; [|split]].
  - destruct (Hread 4 [0; 0; 0; 0] [104; -61; -87; 33] 4
                (jvm sim_at_start)
                (mk_jstate [104; -61; -87; 33; 10] 4 [] 8%nat)
                eq_refl eq_refl ltac:(discriminate)) as (s & Hrun & Ho).
    exists s. eexists. split; [exact Hrun | exact Ho].
  - destruct (Hread_chunk (mk_Chunk 4 "abcd") [0; 0; 0; 0]
                [104; -61; -87; 33] 4 (jvm sim_at_start)
                (mk_jstate [104; -61; -87; 33; 10] 4 [] 8%nat)
                eq_refl eq_refl ltac:(discriminate)) as (s & Hrun & Ho).
    exists (mk_Chunk 4 s). eexists.
    split; [exact Hrun|]. split; [reflexivity | exact Ho].
  - destruct (Hpread 1 3 [0; 0; 0] [-61; -87; 33] 3
                (jvm sim_at_start) (jvm sim_at_start)
                eq_refl eq_refl) as (s & Hrun & Ho).
    exists s. eexists. split; [exact Hrun | exact Ho].
  - destruct (Hpread_chunk 1 (mk_Chunk 3 "xyz") [0; 0; 0] [-61; -87; 33] 3
                (jvm sim_at_start) (jvm sim_at_start)
                eq_refl eq_refl) as (s & Hrun & Ho).
    exists (mk_Chunk 3 s). eexists.
    split; [exact Hrun|]. split; [reflexivity | exact Ho].
Defined.

Lemma read_chunk_end_of_stream_witness :
  CoreHdfsFile.read_chunk sim_java input_handle (mk_Chunk 4 "abcd") sim_at_eof
  = (Ok (VStr "", mk_Chunk 4 "abcd"),
     after sim_at_eof (jvm sim_at_eof)
       [Called (ByteBuffer_allocate_array 4);
        Called (stream_read 7%nat [0; 0; 0; 0])])
  /\ exists c,
      CoreHdfsFile.read_chunk sim_java input_handle (mk_Chunk 4 "abcd")
                              sim_at_start
      = (Ok (VInt 4, c),
         after sim_at_start (mk_jstate [104; -61; -87; 33; 10] 4 [] 8%nat)
           [Called (ByteBuffer_allocate_array 4);
            Called (stream_read 7%nat [0; 0; 0; 0])])
      /\ chunk_len c = 4
      /\ ords (value c) = [104; 195; 169; 33]
      /\ value c <> "abcd".
Proof.
  split.
  - apply (read_chunk_end_of_stream sim_java input_handle 7%nat sim_at_eof
             (mk_Chunk 4 "abcd") [0; 0; 0; 0] [0; 0; 0; 0] (-1)
             (jvm sim_at_eof) (jvm sim_at_eof)
             eq_refl eq_refl eq_refl eq_refl).
    reflexivity.
  - destruct (read_chunk_end_of_stream sim_java input_handle 7%nat
                sim_at_start (mk_Chunk 4 "abcd") [0; 0; 0; 0]
                [104; -61; -87; 33] 4 (jvm sim_at_start)
                (mk_jstate [104; -61; -87; 33; 10] 4 [] 8%nat)
                eq_refl eq_refl eq_refl eq_refl) as (_ & Hread).
    destruct (Hread ltac:(discriminate)) as (s & Hrun & Ho).
    exists (mk_Chunk 4 s). split; [exact Hrun|].
    split; [reflexivity|]. split; [exact Ho|].
    cbn [value]. intros ->. discriminate Ho.
Defined.

Lemma pread_end_of_stream_returns_zeros_witness :
  exists s w',
    CoreHdfsFile.pread sim_java 16384 input_handle 5 4 sim_at_start
    = (Ok s, w')
    /\ ords s = [0; 0; 0]
    /\ CoreHdfsFile.pread_chunk sim_java input_handle 5 (mk_Chunk 4 "abcd")
                                sim_at_start
       = (Ok (-1, mk_Chunk 4 s), w').
Proof.
  destruct (pread_end_of_stream_returns_zeros sim_java 16384 input_handle
              7%nat sim_at_start 3 (jvm sim_at_start) (jvm sim_at_start)
              eq_refl eq_refl eq_refl 5 eq_refl) as (s & Ho & Hp & Hc).
  exists s. eexists. split; [exact Hp|]. split; [exact Ho|].
  exact (Hc (mk_Chunk 4 "abcd") eq_refl).
Defined.

Lemma write_returns_length_witness :
  CoreHdfsFile.write sim_java output_handle "hi" sim_at_eof
  = (Ok 2,
     after sim_at_eof
       (mk_jstate [104; -61; -87; 33; 10; 104; 105] 5 [] 8%nat)
       [Called (jbytearray "hi"); Called (stream_write 7%nat [104; 105])])
  /\ CoreHdfsFile.write sim_java output_handle "" sim_at_eof
     = (Ok 0, sim_at_eof)
  /\ CoreHdfsFile._write sim_java output_handle "hi" (-1) sim_at_eof
     = (Raise (mk_exn IOError ""), sim_at_eof).
Proof.
  destruct (write_returns_length sim_java output_handle 7%nat sim_at_eof "hi"
              eq_refl eq_refl) as (Hneg & _ & Hpos & Hw & _ & _ & Hz).
  split; [|split].
  - rewrite Hw.
    exact (Hpos 2 [104; 105] (jvm sim_at_eof)
             (mk_jstate [104; -61; -87; 33; 10; 104; 105] 5 [] 8%nat)
             eq_refl eq_refl eq_refl).
  - exact Hz.
  - exact (Hneg (-1) eq_refl).
Defined.

(** C2, as stated, fails: the handle that [__init__] builds on stream 7 has
    the wrapper 8, and [write("hi")] on it calls [write] on stream 7. *)
Lemma write_bypasses_wrapper :
  CoreHdfsFile.__init__ sim_java O_WRONLY (Some 7%nat) CoreHdfsFile._OUTPUT
                        sim_at_eof
  = (Ok output_handle,
     after sim_at_eof (mk_jstate [104; -61; -87; 33; 10] 5 [] 9%nat)
           [Called (BufferedOutputStream_new (Some 7%nat))])
  /\ ~ writes_through_wrapper sim_java output_handle "hi"
         (after sim_at_eof (mk_jstate [104; -61; -87; 33; 10] 5 [] 9%nat)
                [Called (BufferedOutputStream_new (Some 7%nat))]).
Proof.
  split; [reflexivity|].
  intros H.
  assert (Hwrapper : CoreHdfsFile._buffered_stream output_handle
                     = Some 7%nat).
  { apply H. right. left. reflexivity. }
  discriminate Hwrapper.
Qed.

Lemma write_goes_to_raw_stream_witness :
  new_events sim_at_eof
    (snd (CoreHdfsFile.write sim_java output_handle "hi" sim_at_eof))
  = [Called (jbytearray "hi"); Called (stream_write 7%nat [104; 105])].
Proof.
  destruct (write_goes_to_raw_stream sim_java output_handle 7%nat sim_at_eof
              "hi" eq_refl eq_refl) as (_ & Hcalls & _).
  exact (Hcalls [104; 105] (jvm sim_at_eof) ltac:(discriminate) eq_refl).
Defined.

(** The small Java side holds a closed stream closed, and throws on every
    I/O call made on it. *)

Lemma sim_close_kills (s : jref) (st st' : jstate) :
  answers sim_java (stream_close s) st tt st' -> s ∈ closed st'.
Proof. unfold answers. cbn. intros [= <-]. cbn. apply list_elem_of_here. Qed.

Lemma sim_dead_stays (s : jref) (st : jstate) (R : Type) (c : jcall R) :
  s ∈ closed st -> s ∈ closed (snd (sim_java R c st)).
Proof.
  intros Hd.
  destruct c; cbn; unfold on_open; try exact Hd;
    try (destruct (is_closed st _); cbn; exact Hd).
  - destruct (capacity <? 0); exact Hd.
  - destruct (is_closed st _); [exact Hd|].
    destruct (fill st (position st) buf). exact Hd.
  - apply list_elem_of_further. exact Hd.
Qed.

Lemma sim_dead_throws (s : jref) (st : jstate) (R : Type) (c : jcall R) :
  s ∈ closed st -> io_target c = Some s -> throws sim_java c st.
Proof.
  intros Hd Hc. destruct c; try discriminate Hc; injection Hc as ->;
    unfold throws; cbn; unfold on_open, is_closed;
    rewrite bool_decide_eq_true_2 by exact Hd;
    eexists _, _; reflexivity.
Qed.



Lemma open_file_rejects_other_accmodes_witness :
  CoreHdfsFs.open_file sim_java sim_fs "/a" (Z.lor O_RDWR O_CREAT) 0 1 0 16384
                       sim_at_eof
  = (Raise (mk_exn IOError "Cannot open an hdfs file in O_RDWR mode"),
     sim_at_eof)
  /\ CoreHdfsFs.open_file sim_java sim_fs "/a" 3 0 1 0 16384 sim_at_eof
     = (Raise (mk_exn IOError "Cannot open an hdfs file in mode 3"),
        sim_at_eof).
Proof.
  split.
  - apply (open_file_rejects_other_accmodes sim_java sim_fs "/a"
             (Z.lor O_RDWR O_CREAT) 0 1 0 16384 sim_at_eof);
      discriminate.
  - apply (open_file_rejects_other_accmodes sim_java sim_fs "/a"
             3 0 1 0 16384 sim_at_eof);
      discriminate.
Defined.

Lemma sim_fetches (st : jstate) :
  fetches sim_java 2%nat sim_path (sim_status st sim_path) st st.
Proof.
  exists false, 134217728, "hdfs://localhost:9000", st, st, st.
  repeat split; reflexivity.
Defined.

Lemma timestamps_narrowed_to_32_bits_witness :
  getModificationTime (sim_status (jvm sim_at_eof) sim_path) = 1400000000000
  /\ exists info w',
      CoreHdfsFs.get_path_info sim_java sim_fs "/a" sim_at_eof = (Ok info, w')
      /\ info !! "last_mod" = Some (VInt (-159338496)).
Proof.
  split; [reflexivity|].
  destruct (timestamps_narrowed_to_32_bits sim_java sim_fs 2%nat "/a"
              sim_path (sim_status (jvm sim_at_eof) sim_path) sim_at_eof
              (jvm sim_at_eof) (jvm sim_at_eof)
              eq_refl ltac:(discriminate) eq_refl
              (sim_fetches (jvm sim_at_eof)))
    as ((info & Hrun & Hmod & _) & _).
  exists info. eexists. split; [exact Hrun | exact Hmod].
Defined.

Lemma chown_fills_absent_from_current_witness :
  CoreHdfsFs.chown sim_java sim_fs "/a" (VStr "") VNone sim_at_eof
  = (Raise (mk_exn Exception "Both owner and group cannot be null in chown"),
     sim_at_eof)
  /\ CoreHdfsFs.chown sim_java sim_fs "/a" (VStr "alice") (VStr "") sim_at_eof
     = (Ok tt,
        after sim_at_eof (jvm sim_at_eof)
          (Called (Path_new "/a")
             :: status_calls 2%nat sim_path
                  (sim_status (jvm sim_at_eof) sim_path)
             ++ [Called (fs_setOwner 2%nat sim_path (VStr "alice")
                                     (VStr "supergroup"))])).
Proof.
  destruct (chown_fills_absent_from_current sim_java sim_fs 2%nat "/a"
              (VStr "") VNone sim_at_eof eq_refl) as (Hboth & _).
  destruct (chown_fills_absent_from_current sim_java sim_fs 2%nat "/a"
              (VStr "alice") (VStr "") sim_at_eof eq_refl) as (_ & Hfill).
  split.
  - exact (Hboth eq_refl eq_refl).
  - rewrite (Hfill sim_path (sim_status (jvm sim_at_eof) sim_path)
               (jvm sim_at_eof) (jvm sim_at_eof)
               eq_refl ltac:(discriminate) eq_refl
               (sim_fetches (jvm sim_at_eof))).
    reflexivity.
Defined.

Lemma connect_resolves_by_three_branches_witness :
  (forall port,
      new_events sim_at_eof
        (snd (CoreHdfsFs._connect sim_java
                (CoreHdfsFs.mk (Some "") port (Some "bob") None 0%nat
                               None None)
                sim_at_eof))
      = [Called (FileSystem_getLocal 0%nat)])
  /\ new_events sim_at_eof
       (snd (CoreHdfsFs._connect sim_java
               (CoreHdfsFs.mk (Some "default") 0 (Some "bob") None 0%nat
                              None None)
               sim_at_eof))
     = [Called (FileSystem_getDefaultUri 0%nat);
        Called (FileSystem_get 8%nat 0%nat (Some "bob"))]
  /\ new_events sim_at_eof
       (snd (CoreHdfsFs._connect sim_java
               (CoreHdfsFs.mk (Some "node1") 9000 None None 0%nat None None)
               sim_at_eof))
     = [Called (URI_create "hdfs://node1:9000");
        Called (FileSystem_get 8%nat 0%nat None)].
Proof.
  split; [|split].
  - intros port.
    destruct (connect_resolves_by_three_branches sim_java
                (CoreHdfsFs.mk (Some "") port (Some "bob") None 0%nat
                               None None)
                sim_at_eof) as (Hlocal & _).
    rewrite (Hlocal eq_refl). reflexivity.
  - destruct (connect_resolves_by_three_branches sim_java
                (CoreHdfsFs.mk (Some "default") 0 (Some "bob") None 0%nat
                               None None)
                sim_at_eof) as (_ & Hdefault & _).
    rewrite (Hdefault eq_refl eq_refl). reflexivity.
  - destruct (connect_resolves_by_three_branches sim_java
                (CoreHdfsFs.mk (Some "node1") 9000 None None 0%nat None None)
                sim_at_eof) as (_ & _ & Huri).
    rewrite (Huri "node1" eq_refl ltac:(discriminate)
                  ltac:(intros [_ H]; discriminate H)).
    vm_compute. reflexivity.
Defined.

(** * Further properties *)

(** ** The guards and the failures of a file handle *)

Section FileHandleGuards.
Context {W : Type}.
Variable java : handler W.
Variable BUFSIZE : Z.

Import CoreHdfsFile.

(** X1: on a handle that has no stream, every method but [get_mode] is
    turned down before anything crosses the bridge: the ten I/O methods
    raise IOError and [available] returns -1, the world being left as it
    was. *)
Theorem no_stream_no_call (self : t) (w : World W) :
  _stream self = None ->
  (forall n, read java BUFSIZE self n w = (Raise (mk_exn IOError ""), w))
  /\ (forall c, read_chunk java self c w = (Raise (mk_exn IOError ""), w))
  /\ (forall p n,
        pread java BUFSIZE self p n w = (Raise (mk_exn IOError ""), w))
  /\ (forall p c,
        pread_chunk java self p c w = (Raise (mk_exn IOError ""), w))
  /\ (forall d, write java self d w = (Raise (mk_exn IOError ""), w))
  /\ (forall c, write_chunk java self c w = (Raise (mk_exn IOError ""), w))
  /\ (forall p, seek java self p w = (Raise (mk_exn IOError ""), w))
  /\ tell java self w = (Raise (mk_exn IOError ""), w)
  /\ flush java self w = (Raise (mk_exn IOError ""), w)
  /\ close java self w = (Raise (mk_exn IOError ""), w)
  /\ available java self w = (Ok (-1), w).
Proof.
  intros Hs.
  unfold read, read_chunk, pread, pread_chunk, write, write_chunk, _write,
    seek, tell, flush, close, available.
  rewrite Hs. repeat split.
Qed.

(** X2: the stream type fixed at construction gates the methods.  On a
    handle that is not INPUT, [read], [read_chunk], [pread], [pread_chunk]
    and [seek] raise IOError and [available] returns -1; on a handle that is
    not OUTPUT, [write], [write_chunk] and [flush] raise IOError.  In each
    case the world is left as it was: the stream is not touched. *)
Theorem stream_type_gates_methods (self : t) (w : World W) :
  (_stream_type self <> _INPUT ->
   (forall n, read java BUFSIZE self n w = (Raise (mk_exn IOError ""), w))
   /\ (forall c, read_chunk java self c w = (Raise (mk_exn IOError ""), w))
   /\ (forall p n,
         pread java BUFSIZE self p n w = (Raise (mk_exn IOError ""), w))
   /\ (forall p c,
         pread_chunk java self p c w = (Raise (mk_exn IOError ""), w))
   /\ (forall p, seek java self p w = (Raise (mk_exn IOError ""), w))
   /\ available java self w = (Ok (-1), w))
  /\ (_stream_type self <> _OUTPUT ->
      (forall d, write java self d w = (Raise (mk_exn IOError ""), w))
      /\ (forall c,
            write_chunk java self c w = (Raise (mk_exn IOError ""), w))
      /\ flush java self w = (Raise (mk_exn IOError ""), w)).
Proof.
  split; intros Ht; apply Z.eqb_neq in Ht;
    unfold read, read_chunk, pread, pread_chunk, write, write_chunk, _write,
      seek, flush, available;
    rewrite Ht; cbn [negb]; destruct (_stream self); repeat split.
Qed.

(** X3: whatever the Java side does, an exception that leaves [read],
    [read_chunk], [pread], [pread_chunk] or [close] is an IOError. *)
Theorem read_and_close_raise_only_IOError (self : t) (w w' : World W)
    (e : pyexn) :
  (forall n, read java BUFSIZE self n w = (Raise e, w') -> cls e = IOError)
  /\ (forall c, read_chunk java self c w = (Raise e, w') -> cls e = IOError)
  /\ (forall p n,
        pread java BUFSIZE self p n w = (Raise e, w') -> cls e = IOError)
  /\ (forall p c,
        pread_chunk java self p c w = (Raise e, w') -> cls e = IOError)
  /\ (close java self w = (Raise e, w') -> cls e = IOError).
Proof.
  unfold read, read_chunk, pread, pread_chunk, close.
  repeat split; intros;
    repeat match goal with
      | H : context [match _stream self with _ => _ end] |- _ =>
          destruct (_stream self)
      | H : context [if negb ?b then _ else _] |- _ => destruct b; cbn [negb] in H
      | H : raise _ _ _ = (Raise _, _) |- _ =>
          unfold raise in H; injection H as <- _; reflexivity
      | H : try_except ?m _ _ = (Raise _, _) |- _ =>
          unfold try_except, raise in H;
          destruct (m w) as [[?|?] ?]; [discriminate H|];
          injection H as <- _; reflexivity
      end.
Qed.

(** X4: [seek], [tell], [flush] and the writes do not translate: when the
    call on the stream throws, the Java exception leaves the method as it
    is, with its message, and is not an IOError. *)
Theorem stream_exceptions_pass_untranslated
    (self : t) (stream : jref) (w : World W) (msg : string) (st' : W) :
  _stream self = Some stream ->
  (java _ (stream_getPos stream) (jvm w) = (inr msg, st') ->
   tell java self w
   = (Raise (mk_exn JavaException msg),
      after w st' [Called (stream_getPos stream)]))
  /\ (forall p,
        _stream_type self = _INPUT ->
        java _ (stream_seek stream p) (jvm w) = (inr msg, st') ->
        seek java self p w
        = (Raise (mk_exn JavaException msg),
           after w st' [Called (stream_seek stream p)]))
  /\ (_stream_type self = _OUTPUT ->
      java _ (stream_flush stream) (jvm w) = (inr msg, st') ->
      flush java self w
      = (Raise (mk_exn JavaException msg),
         after w st' [Called (stream_flush stream)]))
  /\ (forall data bytes st1,
        _stream_type self = _OUTPUT ->
        data <> "" ->
        answers java (jbytearray data) (jvm w) bytes st1 ->
        java _ (stream_write stream bytes) st1 = (inr msg, st') ->
        write java self data w
        = (Raise (mk_exn JavaException msg),
           after w st' [Called (jbytearray data);
                        Called (stream_write stream bytes)])).
Proof.
  intros Hs. unfold tell, seek, flush, write, _write. rewrite Hs.
  repeat split.
  - intros H. unfold invoke. rewrite H. reflexivity.
  - intros p Ht H. rewrite Ht. cbn [negb Z.eqb _INPUT].
    unfold invoke. rewrite H. reflexivity.
  - intros Ht H. rewrite Ht. cbn [negb Z.eqb Pos.eqb _OUTPUT].
    unfold invoke. rewrite H. reflexivity.
  - intros data bytes st1 Ht Hne Hb H. rewrite Ht.
    cbn [negb Z.eqb Pos.eqb _OUTPUT].
    assert (Hnn : (len data <? 0) = false)
      by (apply Z.ltb_ge; unfold len; lia).
    rewrite Hnn, (len_positive data Hne).
    unfold bind at 1.
    rewrite (bind_ok _ _ _ _ _ (invoke_answers java _ _ _ _ Hb)).
    unfold invoke. cbn [jvm after trace]. rewrite H.
    unfold after. rewrite <- app_assoc. reflexivity.
Qed.

End FileHandleGuards.

(** ** What the read variants return *)

Section ReadResults.
Context {W : Type}.
Variable java : handler W.
Variable BUFSIZE : Z.

Import CoreHdfsFile.

Lemma ords_length (s : string) : length (ords s) = String.length s.
Proof. induction s as [|a s IH]; [reflexivity|]. cbn. f_equal. exact IH. Qed.

Lemma slice_to_length_le {A} (buf : list A) (n : Z) :
  (length (slice_to buf n) <= length buf)%nat.
Proof. unfold slice_to. destruct (n <? 0); rewrite length_take; lia. Qed.

Lemma slice_to_length_count {A} (buf : list A) (n : Z) :
  0 <= n <= Z.of_nat (length buf) ->
  Z.of_nat (length (slice_to buf n)) = n.
Proof.
  intros Hn. unfold slice_to.
  assert (Hnn : (n <? 0) = false) by (apply Z.ltb_ge; lia).
  rewrite Hnn, length_take. lia.
Qed.

(** X5: [read] and [pread] return no more bytes than the buffer holds, and
    exactly [n] bytes when the count [n] that the Java side reports is
    between 0 and the size of the buffer. *)
Theorem read_returns_count_bytes
    (self : t) (stream : jref) (w : World W) (size : Z)
    (buf0 buf : list Z) (n : Z) (st1 st2 : W) :
  _stream self = Some stream ->
  _stream_type self = _INPUT ->
  size <> -1 ->
  n <> -1 ->
  answers java (ByteBuffer_allocate_array size) (jvm w) buf0 st1 ->
  (answers java (stream_read stream buf0) st1 (n, buf) st2 ->
   exists s w',
     read java BUFSIZE self size w = (Ok s, w')
     /\ len s <= Z.of_nat (length buf)
     /\ (0 <= n <= Z.of_nat (length buf) -> len s = n))
  /\ (forall p,
        answers java (stream_pread stream p buf0 0 size) st1 (n, buf) st2 ->
        exists s w',
          pread java BUFSIZE self p size w = (Ok s, w')
          /\ len s <= Z.of_nat (length buf)
          /\ (0 <= n <= Z.of_nat (length buf) -> len s = n)).
Proof.
  intros Hs Ht Hsize Hn Ha.
  assert (Hsz : (if size =? -1 then BUFSIZE else size) = size).
  { apply Z.eqb_neq in Hsize. rewrite Hsize. reflexivity. }
  assert (Hlen : forall s,
             ords s = map (fun x => (x + 256) mod 256) (slice_to buf n) ->
             len s <= Z.of_nat (length buf)
             /\ (0 <= n <= Z.of_nat (length buf) -> len s = n)).
  { intros s Ho. unfold len. rewrite <- ords_length, Ho, length_map. split.
    - pose proof (slice_to_length_le buf n). lia.
    - apply slice_to_length_count. }
  rewrite <- Hsz in Ha. split.
  - intros Hr.
    rewrite (read_run java BUFSIZE self stream w size buf0 buf n st1 st2
               Hs Ht Ha Hr).
    apply Z.eqb_neq in Hn. rewrite Hn.
    match goal with
    | |- context [marshal buf n ?w0] =>
        destruct (marshal_unsigned buf n w0) as (s & Hm & Ho)
    end.
    exists s. eexists. split; [exact Hm | exact (Hlen s Ho)].
  - intros p Hr. rewrite <- Hsz in Hr.
    rewrite (pread_run java BUFSIZE self stream w p size buf0 buf n st1 st2
               Hs Ht Ha Hr).
    match goal with
    | |- context [marshal buf n ?w0] =>
        destruct (marshal_unsigned buf n w0) as (s & Hm & Ho)
    end.
    exists s. eexists. split; [exact Hm | exact (Hlen s Ho)].
Qed.

Lemma unsigned_inj (x y : Z) :
  -128 <= x <= 127 -> -128 <= y <= 127 ->
  (x + 256) mod 256 = (y + 256) mod 256 -> x = y.
Proof.
  intros Hx Hy.
  assert (Hu : forall z, -128 <= z <= 127 ->
                 (z + 256) mod 256 = if z <? 0 then z + 256 else z).
  { intros z Hz. destruct (Z.ltb_spec z 0).
    - apply Z.mod_small. lia.
    - replace (z + 256) with (z + 1 * 256) by lia.
      rewrite Z_mod_plus_full. apply Z.mod_small. lia. }
  rewrite (Hu x Hx), (Hu y Hy).
  destruct (Z.ltb_spec x 0), (Z.ltb_spec y 0); lia.
Qed.

(** X6: marshaling loses nothing: two buffers of Java bytes (-128..127)
    that marshal to the same string hold the same bytes in the part that
    was read. *)
Theorem marshal_injective_on_java_bytes
    (buf1 buf2 : list Z) (n1 n2 : Z) (w w1 w2 : World W) (s : string) :
  Forall (fun x => -128 <= x <= 127) buf1 ->
  Forall (fun x => -128 <= x <= 127) buf2 ->
  marshal buf1 n1 w = (Ok s, w1) ->
  marshal buf2 n2 w = (Ok s, w2) ->
  slice_to buf1 n1 = slice_to buf2 n2.
Proof.
  intros H1 H2 Hm1 Hm2.
  destruct (marshal_unsigned buf1 n1 w) as (s1 & Hr1 & Ho1).
  destruct (marshal_unsigned buf2 n2 w) as (s2 & Hr2 & Ho2).
  rewrite Hr1 in Hm1. rewrite Hr2 in Hm2.
  injection Hm1 as -> _. injection Hm2 as -> _.
  rewrite Ho1 in Ho2. clear Ho1 Hr1 Hr2.
  assert (Hs1 : Forall (fun x => -128 <= x <= 127) (slice_to buf1 n1)).
  { unfold slice_to. destruct (n1 <? 0); apply Forall_take; exact H1. }
  assert (Hs2 : Forall (fun x => -128 <= x <= 127) (slice_to buf2 n2)).
  { unfold slice_to. destruct (n2 <? 0); apply Forall_take; exact H2. }
  revert Hs1 Hs2 Ho2.
  generalize (slice_to buf1 n1) as l1, (slice_to buf2 n2) as l2.
  induction l1 as [|x l1 IH]; intros [|y l2] Hs1 Hs2 Heq;
    try discriminate Heq; [reflexivity|].
  cbn [map] in Heq. injection Heq as Hxy Hrest.
  apply Forall_cons in Hs1 as [Hx Hs1]. apply Forall_cons in Hs2 as [Hy Hs2].
  f_equal; [exact (unsigned_inj x y Hx Hy Hxy) | exact (IH l2 Hs1 Hs2 Hrest)].
Qed.

End ReadResults.

(** ** Opening a file *)

Section OpenFile.
Context {W : Type}.
Variable java : handler W.

Import CoreHdfsFs.

Lemma bind_Ok_inv {A B} (m : M W A) (k : A -> M W B) (w w' : World W)
    (b : B) :
  bind m k w = (Ok b, w') ->
  exists a w1, m w = (Ok a, w1) /\ k a w1 = (Ok b, w').
Proof.
  unfold bind. destruct (m w) as [[a|e] w1]; [|discriminate].
  intros H. exists a, w1. split; [reflexivity | exact H].
Qed.

Lemma try_reraise_Ok_inv {A} (m : M W A) (c : exn_class) (w w' : World W)
    (a : A) :
  try_except m (fun e => raise c (message e)) w = (Ok a, w') ->
  m w = (Ok a, w').
Proof.
  unfold try_except, raise. destruct (m w) as [[a'|e] w1]; [|discriminate].
  intros H. exact H.
Qed.

Lemma init_INPUT (mode : Z) (stream : option jref) (w w' : World W)
    (h : CoreHdfsFile.t) :
  CoreHdfsFile.__init__ java mode stream CoreHdfsFile._INPUT w = (Ok h, w') ->
  h = CoreHdfsFile.mk mode stream CoreHdfsFile._INPUT None /\ w' = w.
Proof. cbn. unfold ret. intros [= <- <-]. split; reflexivity. Qed.

Lemma init_OUTPUT (mode : Z) (stream : option jref) (w w' : World W)
    (h : CoreHdfsFile.t) :
  CoreHdfsFile.__init__ java mode stream CoreHdfsFile._OUTPUT w = (Ok h, w') ->
  exists b, h = CoreHdfsFile.mk mode stream CoreHdfsFile._OUTPUT (Some b).
Proof.
  cbn. intros H. apply bind_Ok_inv in H as (b & w1 & _ & H).
  unfold ret in H. injection H as <- _. exists b. reflexivity.
Qed.

(** X7: every handle that [open_file] returns is well formed: it records
    the flags as its mode, it has a stream, and its stream type follows the
    access mode: INPUT without a buffering wrapper for O_RDONLY, OUTPUT with
    one for O_WRONLY.  No other access mode yields a handle. *)
Theorem open_file_handle_well_formed
    (self : t) (path : string)
    (flags buff_size replication blocksize readline_chunk_size : Z)
    (w w' : World W) (h : CoreHdfsFile.t) :
  open_file java self path flags buff_size replication blocksize
            readline_chunk_size w = (Ok h, w') ->
  CoreHdfsFile._mode h = flags
  /\ (exists stream, CoreHdfsFile._stream h = Some stream)
  /\ ((accmode_of flags = O_RDONLY
       /\ CoreHdfsFile._stream_type h = CoreHdfsFile._INPUT
       /\ CoreHdfsFile._buffered_stream h = None)
      \/ (accmode_of flags = O_WRONLY
          /\ CoreHdfsFile._stream_type h = CoreHdfsFile._OUTPUT
          /\ exists b, CoreHdfsFile._buffered_stream h = Some b)).
Proof.
  unfold open_file. fold (accmode_of flags).
  destruct (Z.eqb_spec (accmode_of flags) O_WRONLY) as [Hw|Hw];
    destruct (Z.eqb_spec (accmode_of flags) O_RDONLY) as [Hr|Hr];
    cbn [negb andb].
  - rewrite Hw in Hr. discriminate Hr.
  - intros H.
    apply bind_Ok_inv in H as (? & ? & _ & H).
    apply bind_Ok_inv in H as (? & ? & _ & H).
    apply bind_Ok_inv in H as (? & ? & _ & H).
    apply bind_Ok_inv in H as (? & ? & _ & H).
    apply bind_Ok_inv in H as ([stream ty] & ? & Hopen & H).
    apply try_reraise_Ok_inv in Hopen.
    apply bind_Ok_inv in Hopen as (? & ? & _ & Hopen).
    destruct (nonzero (Z.land flags O_APPEND)); cbn [andb] in Hopen.
    + apply bind_Ok_inv in Hopen as (? & ? & _ & Hopen).
      apply bind_Ok_inv in Hopen as (? & ? & _ & Hopen).
      unfold ret in Hopen. injection Hopen as <- <- _.
      apply init_OUTPUT in H as (b & ->). cbn.
      split; [reflexivity|]. split; [eauto|]. right. eauto.
    + apply bind_Ok_inv in Hopen as (? & ? & _ & Hopen).
      apply bind_Ok_inv in Hopen as (? & ? & _ & Hopen).
      apply bind_Ok_inv in Hopen as (? & ? & _ & Hopen).
      unfold ret in Hopen. injection Hopen as <- <- _.
      apply init_OUTPUT in H as (b & ->). cbn.
      split; [reflexivity|]. split; [eauto|]. right. eauto.
  - intros H.
    apply bind_Ok_inv in H as (? & ? & _ & H).
    apply bind_Ok_inv in H as (? & ? & _ & H).
    apply bind_Ok_inv in H as (? & ? & _ & H).
    apply bind_Ok_inv in H as (? & ? & _ & H).
    apply bind_Ok_inv in H as ([stream ty] & ? & Hopen & H).
    apply try_reraise_Ok_inv in Hopen.
    apply bind_Ok_inv in Hopen as (? & ? & _ & Hopen).
    apply bind_Ok_inv in Hopen as (? & ? & _ & Hopen).
    apply bind_Ok_inv in Hopen as (? & ? & _ & Hopen).
    unfold ret in Hopen. injection Hopen as <- <- _.
    apply init_INPUT in H as (-> & _). cbn.
    split; [reflexivity|]. split; [eauto|]. left. eauto.
  - destruct (accmode_of flags =? O_RDWR); discriminate.
Qed.

(** X8: opening with access mode O_RDONLY.  The buffer size is the one
    given or, given as 0, the configuration's "dfs.blocksize" with 4096 as
    its fallback; the path is built, [open] is called on it with that buffer
    size, and the handle is an INPUT handle on the stream that [open]
    answered, with no wrapper.  Replication and block size are not looked
    at. *)
Theorem open_file_read_only
    (self : t) (fs : jref) (path : string)
    (flags buff_size replication blocksize readline_chunk_size : Z)
    (w : World W) (b : Z) (jpath : JPath) (stream : jref) (st0 st1 st2 : W) :
  _fs self = Some fs ->
  accmode_of flags = O_RDONLY ->
  path <> "" ->
  defaulted java buff_size
    (Configuration_getInt (_configuration self) BLOCKSIZE_CONFIG_PROPERTY 4096)
    (jvm w) b st0 ->
  answers java (Path_new path) st0 jpath st1 ->
  answers java (fs_open fs jpath b) st1 stream st2 ->
  open_file java self path flags buff_size replication blocksize
            readline_chunk_size w
  = (Ok (CoreHdfsFile.mk flags (Some stream) CoreHdfsFile._INPUT None),
     after w st2
       (warn_events flags
        ++ default_events buff_size
             (Configuration_getInt (_configuration self)
                                   BLOCKSIZE_CONFIG_PROPERTY 4096)
        ++ [Called (Path_new path); Called (fs_open fs jpath b);
            Logged "debug" "File opened in read mode"])).
Proof.
  intros Hfs Hacc Hne Hb Hp Ho.
  unfold open_file. fold (accmode_of flags). rewrite Hacc.
  cbn [Z.eqb O_RDONLY O_WRONLY negb andb].
  unfold warn_events, default_events, defaulted, get_jpath, the_fs,
    CoreHdfsFile.__init__, nonzero, answers in *.
  rewrite Hfs, (bool_decide_eq_false_2 _ Hne).
  cbn [Z.eqb CoreHdfsFile._INPUT CoreHdfsFile._OUTPUT].
  unfold bind, try_except, invoke, logger, ret, after.
  destruct (negb (Z.land flags O_CREAT =? 0)
            && negb (Z.land flags O_EXCL =? 0));
    (destruct (buff_size =? 0); cbn [negb jvm trace];
     [rewrite Hb | destruct Hb as [-> ->]]); cbn [jvm trace];
    rewrite Hp; cbn [jvm trace]; rewrite Ho; cbn [jvm trace];
    rewrite <- ?app_assoc; reflexivity.
Qed.

(** X9: opening with access mode O_WRONLY and the O_APPEND bit.  [append]
    is called on the path and the handle is an OUTPUT handle whose wrapper
    was built on the stream that [append] answered.  The replication and
    the block size are not looked at, whatever their values; the buffer
    size is resolved as in the other modes, though [append] does not take
    it. *)
Theorem open_file_append
    (self : t) (fs : jref) (path : string)
    (flags buff_size replication blocksize readline_chunk_size : Z)
    (w : World W) (b : Z) (jpath : JPath) (stream wrapper : jref)
    (st0 st1 st2 st3 : W) :
  _fs self = Some fs ->
  accmode_of flags = O_WRONLY ->
  nonzero (Z.land flags O_APPEND) = true ->
  path <> "" ->
  defaulted java buff_size
    (Configuration_getInt (_configuration self) BLOCKSIZE_CONFIG_PROPERTY 4096)
    (jvm w) b st0 ->
  answers java (Path_new path) st0 jpath st1 ->
  answers java (fs_append fs jpath) st1 stream st2 ->
  answers java (BufferedOutputStream_new (Some stream)) st2 wrapper st3 ->
  open_file java self path flags buff_size replication blocksize
            readline_chunk_size w
  = (Ok (CoreHdfsFile.mk flags (Some stream) CoreHdfsFile._OUTPUT
                         (Some wrapper)),
     after w st3
       (warn_events flags
        ++ default_events buff_size
             (Configuration_getInt (_configuration self)
                                   BLOCKSIZE_CONFIG_PROPERTY 4096)
        ++ [Called (Path_new path); Called (fs_append fs jpath);
            Logged "debug" "File opened in append mode";
            Called (BufferedOutputStream_new (Some stream))])).
Proof.
  intros Hfs Hacc Happ Hne Hb Hp Ho Hwr.
  unfold open_file. fold (accmode_of flags). rewrite Hacc, Happ.
  assert (Hz : (Z.land flags O_APPEND =? 0) = false).
  { unfold nonzero in Happ. destruct (Z.land flags O_APPEND =? 0);
      [discriminate Happ | reflexivity]. }
  rewrite Hz.
  cbn [Z.eqb Pos.eqb O_RDONLY O_WRONLY negb andb].
  unfold warn_events, default_events, defaulted, get_jpath, the_fs,
    CoreHdfsFile.__init__, nonzero, answers in *.
  rewrite Hfs, (bool_decide_eq_false_2 _ Hne).
  cbn [Z.eqb Pos.eqb CoreHdfsFile._INPUT CoreHdfsFile._OUTPUT].
  unfold bind, try_except, invoke, logger, ret, after.
  destruct (negb (Z.land flags O_CREAT =? 0)
            && negb (Z.land flags O_EXCL =? 0));
    (destruct (buff_size =? 0); cbn [negb jvm trace];
     [rewrite Hb | destruct Hb as [-> ->]]); cbn [jvm trace];
    rewrite Hp; cbn [jvm trace]; rewrite Ho;
    cbn [jvm trace Z.eqb Pos.eqb CoreHdfsFile._OUTPUT];
    rewrite Hwr; cbn [jvm trace];
    rewrite <- ?app_assoc; reflexivity.
Qed.

(** X10: opening with access mode O_WRONLY and no O_APPEND bit.  Each of
    the buffer size, the replication and the block size is the one given or,
    given as 0, a default: the configuration's "dfs.blocksize" (fallback
    4096), the configuration's "dfs.replication" (fallback 1), and the
    filesystem's default block size for the path.  [create] is called with
    these and with overwrite always true, and the handle is an OUTPUT handle
    with a wrapper on the created stream. *)
Theorem open_file_create
    (self : t) (fs : jref) (path : string)
    (flags buff_size replication blocksize readline_chunk_size : Z)
    (w : World W) (b r k : Z) (jpath : JPath) (stream wrapper : jref)
    (st0 st1 st2 st3 st4 st5 : W) :
  _fs self = Some fs ->
  accmode_of flags = O_WRONLY ->
  nonzero (Z.land flags O_APPEND) = false ->
  path <> "" ->
  defaulted java buff_size
    (Configuration_getInt (_configuration self) BLOCKSIZE_CONFIG_PROPERTY 4096)
    (jvm w) b st0 ->
  defaulted java replication
    (Configuration_getInt (_configuration self) REPLICATION_CONFIG_PROPERTY 1)
    st0 r st1 ->
  answers java (Path_new path) st1 jpath st2 ->
  defaulted java blocksize (fs_getDefaultBlockSize fs jpath) st2 k st3 ->
  answers java (fs_create fs jpath true b r k) st3 stream st4 ->
  answers java (BufferedOutputStream_new (Some stream)) st4 wrapper st5 ->
  open_file java self path flags buff_size replication blocksize
            readline_chunk_size w
  = (Ok (CoreHdfsFile.mk flags (Some stream) CoreHdfsFile._OUTPUT
                         (Some wrapper)),
     after w st5
       (warn_events flags
        ++ default_events buff_size
             (Configuration_getInt (_configuration self)
                                   BLOCKSIZE_CONFIG_PROPERTY 4096)
        ++ default_events replication
             (Configuration_getInt (_configuration self)
                                   REPLICATION_CONFIG_PROPERTY 1)
        ++ [Called (Path_new path)]
        ++ default_events blocksize (fs_getDefaultBlockSize fs jpath)
        ++ [Called (fs_create fs jpath true b r k);
            Logged "debug" "File opened in write mode";
            Called (BufferedOutputStream_new (Some stream))])).
Proof.
  intros Hfs Hacc Happ Hne Hb Hr Hp Hk Ho Hwr.
  unfold open_file. fold (accmode_of flags). rewrite Hacc, Happ.
  assert (Hz : (Z.land flags O_APPEND =? 0) = true).
  { unfold nonzero in Happ. destruct (Z.land flags O_APPEND =? 0);
      [reflexivity | discriminate Happ]. }
  rewrite Hz.
  cbn [Z.eqb Pos.eqb O_RDONLY O_WRONLY negb andb].
  unfold warn_events, default_events, defaulted, get_jpath, the_fs,
    CoreHdfsFile.__init__, nonzero, answers in *.
  rewrite Hfs, (bool_decide_eq_false_2 _ Hne).
  unfold bind, try_except, invoke, logger, ret, after.
  destruct (negb (Z.land flags O_CREAT =? 0)
            && negb (Z.land flags O_EXCL =? 0));
    (destruct (buff_size =? 0); cbn [negb jvm trace];
     [rewrite Hb | destruct Hb as [-> ->]]); cbn [jvm trace];
    (destruct (replication =? 0); cbn [negb jvm trace];
     [rewrite Hr | destruct Hr as [-> ->]]); cbn [jvm trace];
    rewrite Hp; cbn [jvm trace];
    (destruct (blocksize =? 0); cbn [negb jvm trace];
     [rewrite Hk | destruct Hk as [-> ->]]); cbn [jvm trace];
    rewrite Ho;
    cbn [jvm trace Z.eqb Pos.eqb CoreHdfsFile._OUTPUT];
    rewrite Hwr; cbn [jvm trace app];
    rewrite <- ?app_assoc; reflexivity.
Qed.

(** X11: an exception that the Java side throws while opening, appending or
    creating is raised as an IOError carrying its message, and no handle is
    built: the wrapper is never constructed.  This holds for every value of
    the buffer size, the replication and the block size, each one given or,
    given as 0, defaulted as in the successful runs. *)
Theorem open_file_failure_is_IOError
    (self : t) (fs : jref) (path : string)
    (flags buff_size replication blocksize readline_chunk_size : Z)
    (w : World W) (b : Z) (msg : string) (st0 : W) :
  _fs self = Some fs ->
  path <> "" ->
  defaulted java buff_size
    (Configuration_getInt (_configuration self) BLOCKSIZE_CONFIG_PROPERTY 4096)
    (jvm w) b st0 ->
  (forall jpath st1 st2,
      accmode_of flags = O_RDONLY ->
      answers java (Path_new path) st0 jpath st1 ->
      java _ (fs_open fs jpath b) st1 = (inr msg, st2) ->
      open_file java self path flags buff_size replication blocksize
                readline_chunk_size w
      = (Raise (mk_exn IOError msg),
         after w st2
           (warn_events flags
            ++ default_events buff_size
                 (Configuration_getInt (_configuration self)
                                       BLOCKSIZE_CONFIG_PROPERTY 4096)
            ++ [Called (Path_new path); Called (fs_open fs jpath b)])))
  /\ (forall jpath st1 st2,
        accmode_of flags = O_WRONLY ->
        nonzero (Z.land flags O_APPEND) = true ->
        answers java (Path_new path) st0 jpath st1 ->
        java _ (fs_append fs jpath) st1 = (inr msg, st2) ->
        open_file java self path flags buff_size replication blocksize
                  readline_chunk_size w
        = (Raise (mk_exn IOError msg),
           after w st2
             (warn_events flags
              ++ default_events buff_size
                   (Configuration_getInt (_configuration self)
                                         BLOCKSIZE_CONFIG_PROPERTY 4096)
              ++ [Called (Path_new path); Called (fs_append fs jpath)])))
  /\ (forall r k jpath st1 st2 st3 st4,
        accmode_of flags = O_WRONLY ->
        nonzero (Z.land flags O_APPEND) = false ->
        defaulted java replication
          (Configuration_getInt (_configuration self)
                                REPLICATION_CONFIG_PROPERTY 1)
          st0 r st1 ->
        answers java (Path_new path) st1 jpath st2 ->
        defaulted java blocksize (fs_getDefaultBlockSize fs jpath) st2 k st3 ->
        java _ (fs_create fs jpath true b r k) st3 = (inr msg, st4) ->
        open_file java self path flags buff_size replication blocksize
                  readline_chunk_size w
        = (Raise (mk_exn IOError msg),
           after w st4
             (warn_events flags
              ++ default_events buff_size
                   (Configuration_getInt (_configuration self)
                                         BLOCKSIZE_CONFIG_PROPERTY 4096)
              ++ default_events replication
                   (Configuration_getInt (_configuration self)
                                         REPLICATION_CONFIG_PROPERTY 1)
              ++ [Called (Path_new path)]
              ++ default_events blocksize (fs_getDefaultBlockSize fs jpath)
              ++ [Called (fs_create fs jpath true b r k)]))).
Proof.
  intros Hfs Hne Hb. split; [|split].
  - intros jpath st1 st2 Hacc Hp Ho.
    unfold open_file. fold (accmode_of flags). rewrite Hacc.
    cbn [Z.eqb O_RDONLY O_WRONLY negb andb].
    unfold warn_events, default_events, defaulted, get_jpath, the_fs,
      nonzero, answers in *.
    rewrite Hfs, (bool_decide_eq_false_2 _ Hne).
    unfold bind, try_except, invoke, logger, ret, raise, after.
    destruct (negb (Z.land flags O_CREAT =? 0)
              && negb (Z.land flags O_EXCL =? 0));
      (destruct (buff_size =? 0); cbn [negb jvm trace];
       [rewrite Hb | destruct Hb as [-> ->]]); cbn [jvm trace];
      rewrite Hp; cbn [jvm trace]; rewrite Ho;
      cbn [jvm trace message app];
      rewrite <- ?app_assoc; reflexivity.
  - intros jpath st1 st2 Hacc Happ Hp Ho.
    unfold open_file. fold (accmode_of flags). rewrite Hacc, Happ.
    assert (Hz : (Z.land flags O_APPEND =? 0) = false).
    { unfold nonzero in Happ. destruct (Z.land flags O_APPEND =? 0);
        [discriminate Happ | reflexivity]. }
    rewrite Hz.
    cbn [Z.eqb Pos.eqb O_RDONLY O_WRONLY negb andb].
    unfold warn_events, default_events, defaulted, get_jpath, the_fs,
      nonzero, answers in *.
    rewrite Hfs, (bool_decide_eq_false_2 _ Hne).
    unfold bind, try_except, invoke, logger, ret, raise, after.
    destruct (negb (Z.land flags O_CREAT =? 0)
              && negb (Z.land flags O_EXCL =? 0));
      (destruct (buff_size =? 0); cbn [negb jvm trace];
       [rewrite Hb | destruct Hb as [-> ->]]); cbn [jvm trace];
      rewrite Hp; cbn [jvm trace]; rewrite Ho;
      cbn [jvm trace message app];
      rewrite <- ?app_assoc; reflexivity.
  - intros r k jpath st1 st2 st3 st4 Hacc Happ Hr Hp Hk Ho.
    unfold open_file. fold (accmode_of flags). rewrite Hacc, Happ.
    assert (Hz : (Z.land flags O_APPEND =? 0) = true).
    { unfold nonzero in Happ. destruct (Z.land flags O_APPEND =? 0);
        [reflexivity | discriminate Happ]. }
    rewrite Hz.
    cbn [Z.eqb Pos.eqb O_RDONLY O_WRONLY negb andb].
    unfold warn_events, default_events, defaulted, get_jpath, the_fs,
      nonzero, answers in *.
    rewrite Hfs, (bool_decide_eq_false_2 _ Hne).
    unfold bind, try_except, invoke, logger, ret, raise, after.
    destruct (negb (Z.land flags O_CREAT =? 0)
              && negb (Z.land flags O_EXCL =? 0));
      (destruct (buff_size =? 0); cbn [negb jvm trace];
       [rewrite Hb | destruct Hb as [-> ->]]); cbn [jvm trace];
      (destruct (replication =? 0); cbn [negb jvm trace];
       [rewrite Hr | destruct Hr as [-> ->]]); cbn [jvm trace];
      rewrite Hp; cbn [jvm trace];
      (destruct (blocksize =? 0); cbn [negb jvm trace];
       [rewrite Hk | destruct Hk as [-> ->]]); cbn [jvm trace];
      rewrite Ho; cbn [jvm trace message app];
      rewrite <- ?app_assoc; reflexivity.
Qed.

(** X12: with a valid access mode and an empty path, [open_file] raises
    ValueError, not IOError: the path is built outside the [try].  Given
    explicit buffer size and replication, nothing has crossed the bridge. *)
Theorem open_file_empty_path
    (self : t)
    (flags buff_size replication blocksize readline_chunk_size : Z)
    (w : World W) :
  accmode_of flags = O_RDONLY \/ accmode_of flags = O_WRONLY ->
  buff_size <> 0 -> replication <> 0 ->
  open_file java self "" flags buff_size replication blocksize
            readline_chunk_size w
  = (Raise (mk_exn ValueError "Empty path"),
     after w (jvm w) (warn_events flags)).
Proof.
  intros Hacc Hb Hr. apply Z.eqb_neq in Hb, Hr. destruct w as [st tr].
  unfold open_file. fold (accmode_of flags).
  unfold warn_events, get_jpath, nonzero.
  rewrite Hb, Hr, (bool_decide_eq_true_2 ("" = "") eq_refl).
  cbn [negb]. rewrite andb_false_r.
  unfold bind, logger, ret, raise, after.
  destruct Hacc as [-> | ->];
    cbn [Z.eqb Pos.eqb O_RDONLY O_WRONLY negb andb];
    destruct (negb (Z.land flags O_CREAT =? 0)
              && negb (Z.land flags O_EXCL =? 0));
    cbn [jvm trace]; rewrite ?app_nil_r; reflexivity.
Qed.

End OpenFile.

(** ** Metadata and construction of the filesystem handle *)

Section FsMetadata.
Context {W : Type}.
Variable java : handler W.

Import CoreHdfsFs.

(** X13: when the status of the path cannot be fetched, [get_path_info]
    raises an IOError with an empty message, whatever the Java exception
    said; [chown] given a user or a group fails the same way and never
    reaches [setOwner]. *)
Theorem status_failure_is_bare_IOError
    (self : t) (fs : jref) (path : string) (user group : pyval)
    (w : World W) (jpath : JPath) (msg : string) (st1 st2 : W) :
  _fs self = Some fs ->
  path <> "" ->
  answers java (Path_new path) (jvm w) jpath st1 ->
  java _ (fs_getFileStatus fs jpath) st1 = (inr msg, st2) ->
  get_path_info java self path w
  = (Raise (mk_exn IOError ""),
     after w st2 [Called (Path_new path);
                  Called (fs_getFileStatus fs jpath)])
  /\ (is_none_or_empty user && is_none_or_empty group = false ->
      chown java self path user group w
      = (Raise (mk_exn IOError ""),
         after w st2 [Called (Path_new path);
                      Called (fs_getFileStatus fs jpath)])).
Proof.
  intros Hfs Hne Hp Hs.
  assert (Hinfo : _get_jpath_info java self jpath None
                    (after w st1 [Called (Path_new path)])
                  = (Raise (mk_exn IOError ""),
                     after w st2 [Called (Path_new path);
                                  Called (fs_getFileStatus fs jpath)])).
  { unfold _get_jpath_info, the_fs, bind, try_except, ret, invoke, raise.
    rewrite Hfs. cbn [jvm trace after]. rewrite Hs. cbn [jvm trace].
    unfold after. rewrite <- app_assoc. reflexivity. }
  split.
  - unfold get_path_info, get_jpath.
    rewrite (bool_decide_eq_false_2 _ Hne).
    rewrite (bind_ok _ _ _ _ _ (invoke_answers java _ _ _ _ Hp)).
    exact Hinfo.
  - intros Hboth. unfold chown, get_jpath.
    rewrite Hboth, (bool_decide_eq_false_2 _ Hne).
    rewrite (bind_ok _ _ _ _ _ (invoke_answers java _ _ _ _ Hp)).
    unfold bind at 1. rewrite Hinfo. reflexivity.
Qed.

(** X14: the record built from a status that the caller supplies.  No
    status is fetched: the calls are [isDirectory], [getBlockSize] and
    [getUri].  The kind comes from [isDirectory], not from the status; name,
    depth, absolute and parent come from the path given, path from the
    status; parent is present exactly when the path has a parent, and the
    record has no other key than the fifteen. *)
Theorem path_record_from_supplied_status
    (self : t) (fs : jref) (jpath : JPath) (jstatus : JFileStatus)
    (w : World W) (isdir : bool) (block_size : Z) (uri : string)
    (st1 st2 st3 : W) :
  _fs self = Some fs ->
  answers java (fs_isDirectory fs jpath) (jvm w) isdir st1 ->
  answers java (fs_getBlockSize fs jpath) st1 block_size st2 ->
  answers java (fs_getUri_toString fs) st2 uri st3 ->
  exists info,
    _get_jpath_info java self jpath (Some jstatus) w
    = (Ok info,
       after w st3 [Called (fs_isDirectory fs jpath);
                    Called (fs_getBlockSize fs jpath);
                    Called (fs_getUri_toString fs)])
    /\ info !! "name" = Some (VStr (Path_toString jpath))
    /\ info !! "kind" = Some (VStr (if isdir then "directory" else "file"))
    /\ info !! "group" = Some (VStr (getGroup jstatus))
    /\ info !! "owner" = Some (VStr (getOwner jstatus))
    /\ info !! "replication" = Some (VInt (getReplication jstatus))
    /\ info !! "permissions" = Some (VInt (getPermission_toShort jstatus))
    /\ info !! "block_size" = Some (VInt block_size)
    /\ info !! "path" = Some (VStr (Path_toString (getPath jstatus)))
    /\ info !! "fs_uri" = Some (VStr uri)
    /\ info !! "depth" = Some (VInt (Path_depth jpath))
    /\ info !! "size" = Some (VInt (getLen jstatus))
    /\ info !! "absolute" = Some (VBool (Path_isAbsolute jpath))
    /\ info !! "parent"
       = (fun p => VStr (Path_getName p)) <$> Path_getParent jpath
    /\ (forall k,
          k ∉ ["name"; "kind"; "group"; "last_mod"; "last_access";
               "replication"; "owner"; "permissions"; "block_size"; "path";
               "fs_uri"; "depth"; "size"; "absolute"; "parent"] ->
          info !! k = None).
Proof.
  intros Hfs H1 H2 H3. unfold answers in H1, H2, H3.
  unfold _get_jpath_info, the_fs, bind, ret, invoke.
  rewrite Hfs. cbn [jvm trace]. rewrite H1. cbn [jvm trace].
  rewrite H2. cbn [jvm trace]. rewrite H3. cbn [jvm trace].
  unfold after. rewrite <- !app_assoc. cbn [app].
  eexists. split; [reflexivity|].
  destruct (Path_getParent jpath), isdir;
    repeat split; try (simplify_map_eq; reflexivity);
    intros k Hk; repeat rewrite not_elem_of_cons in Hk;
    destruct_and!; simplify_map_eq; reflexivity.
Qed.

(** X15: a filesystem handle that [__init__] returns keeps the host, the
    port and the user it was given, which [get_host], [get_port] and
    [get_user] read back; its configuration is the one the Java side built
    with the defaults loaded; and it is connected: [_fs] is set, so no
    method that reads [self._fs] can fail on a missing attribute. *)
Theorem init_keeps_parameters_and_connects
    (host : option string) (port : Z) (user : option string)
    (groups : option (list string)) (w w' : World W) (h : t) :
  __init__ java host port user groups w = (Ok h, w') ->
  CoreHdfsFsAdmin.get_host h = host
  /\ CoreHdfsFsAdmin.get_port h = port
  /\ CoreHdfsFsAdmin.get_user h = user
  /\ _groups h = groups
  /\ (exists st, answers java (Configuration_new true) (jvm w)
                         (_configuration h) st)
  /\ (exists fs, _fs h = Some fs).
Proof.
  unfold __init__. intros H.
  apply bind_Ok_inv in H as (conf & w1 & Hconf & H).
  assert (Hc : exists st, answers java (Configuration_new true) (jvm w)
                                  conf st).
  { unfold invoke in Hconf. unfold answers.
    destruct (java _ (Configuration_new true) (jvm w)) as [[c|m] st];
      [|discriminate Hconf].
    injection Hconf as -> _. exists st. reflexivity. }
  assert (Hh : CoreHdfsFsAdmin.get_host h = host
               /\ CoreHdfsFsAdmin.get_port h = port
               /\ CoreHdfsFsAdmin.get_user h = user
               /\ _groups h = groups
               /\ _configuration h = conf
               /\ exists fs, _fs h = Some fs).
  { unfold _connect in H. cbn [_host _port _user _configuration] in H.
    destruct (none_or_empty host).
    - apply bind_Ok_inv in H as (fs & ? & _ & H).
      unfold ret in H. injection H as <- _. cbn. eauto 10.
    - destruct (bool_decide (host = Some "default") && (port =? 0));
        apply bind_Ok_inv in H as (uri & ? & _ & H);
        cbn [set_fs_uri _user _configuration] in H;
        destruct (truthy user);
        apply bind_Ok_inv in H as (fs & ? & _ & H);
        unfold ret in H; injection H as <- _; cbn; eauto 10. }
  destruct Hh as (H1 & H2 & H3 & H4 & H5 & fs & H6).
  repeat split; try assumption.
  - rewrite H5. exact Hc.
  - eauto.
Qed.

End FsMetadata.

(** ** The administrative methods *)

Section Admin.
Context {W : Type}.
Variable java : handler W.
Variable admin : fs_handler W.

Import CoreHdfsFs.
Import CoreHdfsFsAdmin.

Lemma core_invoke {R} (c : jcall R) (w : World (Bridge W)) (r : R) (st : W) :
  answers java c (java_state (jvm w)) r st ->
  invoke (core java) c w = (Ok r, after_calls w st [CoreCall c] [Called c]).
Proof. unfold answers, invoke, core. intros ->. reflexivity. Qed.

Lemma core_invoke_throws {R} (c : jcall R) (w : World (Bridge W))
    (msg : string) (st : W) :
  java R c (java_state (jvm w)) = (inr msg, st) ->
  invoke (core java) c w
  = (Raise (mk_exn JavaException msg),
     after_calls w st [CoreCall c] [Called c]).
Proof. unfold invoke, core. intros ->. reflexivity. Qed.

Lemma fs_invoke {R} (c : fscall R) (w : World (Bridge W)) (r : R) (st : W) :
  admin R c (java_state (jvm w)) = (inl r, st) ->
  invoke_fs admin c w = (Ok r, after_calls w st [FsCall c] []).
Proof.
  unfold invoke_fs, after_calls. intros ->. rewrite app_nil_r. reflexivity.
Qed.

Lemma after_calls_twice (w : World (Bridge W)) (st1 st2 : W)
    (cs1 cs2 : list bridge_event) (es1 es2 : list event) :
  after_calls (after_calls w st1 cs1 es1) st2 cs2 es2
  = after_calls w st2 (cs1 ++ cs2) (es1 ++ es2).
Proof.
  unfold after_calls. cbn [jvm trace calls]. rewrite <- !app_assoc.
  reflexivity.
Qed.

Lemma get_jpath_core (path : string) (w : World (Bridge W)) (jpath : JPath)
    (st : W) :
  path <> "" ->
  answers java (Path_new path) (java_state (jvm w)) jpath st ->
  get_jpath (core java) path w
  = (Ok jpath,
     after_calls w st [CoreCall (Path_new path)] [Called (Path_new path)]).
Proof.
  intros Hne Hp. unfold get_jpath. rewrite (bool_decide_eq_false_2 _ Hne).
  apply core_invoke, Hp.
Qed.

Lemma get_jpath_empty {V} (java' : handler V) (w : World V) :
  get_jpath java' "" w = (Raise (mk_exn ValueError "Empty path"), w).
Proof.
  unfold get_jpath. rewrite (bool_decide_eq_true_2 ("" = "") eq_refl).
  reflexivity.
Qed.

(** X16: no administrative method takes an empty path to the Java side.
    With an empty path (the first one, for the methods that take two) each
    of them raises ValueError and leaves the world as it was; with an empty
    second path, [rename], [copy] and [move] have built the first path and
    raise ValueError before the call that would rename or copy. *)
Theorem empty_path_never_reaches_backend
    (self to_hdfs : t) (fs : jref) (w : World (Bridge W)) :
  _fs self = Some fs ->
  (forall mode, chmod java admin self "" mode w = refused w)
  /\ exists_ java admin self "" w = refused w
  /\ create_directory java admin self "" w = refused w
  /\ (forall recursive, delete java admin self "" recursive w = refused w)
  /\ (forall start length,
        get_hosts java admin self "" start length w = refused w)
  /\ set_working_directory java admin self "" w = refused w
  /\ (forall n, set_replication java admin self "" n w = refused w)
  /\ list_directory java admin self "" w = refused w
  /\ (forall mtime atime, utime java admin self "" mtime atime w = refused w)
  /\ (forall to_path, rename java admin self "" to_path w = refused w)
  /\ (forall to_path, copy java admin self "" to_hdfs to_path w = refused w)
  /\ (forall to_path, move java admin self "" to_hdfs to_path w = refused w)
  /\ (forall from_path jpath st,
        from_path <> "" ->
        answers java (Path_new from_path) (java_state (jvm w)) jpath st ->
        let w1 := after_calls w st [CoreCall (Path_new from_path)]
                              [Called (Path_new from_path)] in
        rename java admin self from_path "" w = refused w1
        /\ copy java admin self from_path to_hdfs "" w = refused w1
        /\ move java admin self from_path to_hdfs "" w = refused w1).
Proof.
  intros Hfs.
  unfold chmod, exists_, create_directory, delete, get_hosts,
    set_working_directory, set_replication, list_directory, utime, rename,
    copy, move, _copy_helper, the_fs, refused.
  rewrite Hfs.
  repeat split; intros; unfold bind, ret;
    rewrite ?get_jpath_empty; try reflexivity;
    match goal with
    | Hne : _ <> "", Hp : answers _ _ _ _ _ |- _ =>
        rewrite (get_jpath_core _ w _ _ Hne Hp), get_jpath_empty;
        reflexivity
    end.
Qed.

Lemma the_fs_set {V} (self : t) (fs : jref) (w : World V) :
  _fs self = Some fs -> the_fs self w = (Ok fs, w).
Proof. unfold the_fs. intros ->. reflexivity. Qed.

(** X17: [list_directory] on a path that the filesystem reports as not
    existing raises IOError with the message "Path <path> does not exist",
    after building the path and asking [exists]: nothing is listed. *)
Theorem list_directory_missing_path
    (self : t) (fs : jref) (path : string) (w : World (Bridge W))
    (jpath : JPath) (st1 st2 : W) :
  _fs self = Some fs ->
  path <> "" ->
  answers java (Path_new path) (java_state (jvm w)) jpath st1 ->
  admin _ (fs_exists fs jpath) st1 = (inl false, st2) ->
  list_directory java admin self path w
  = (Raise (mk_exn IOError ("Path " +:+ path +:+ " does not exist")),
     after_calls w st2
       [CoreCall (Path_new path); FsCall (fs_exists fs jpath)]
       [Called (Path_new path)]).
Proof.
  intros Hfs Hne Hp He. unfold list_directory.
  rewrite (bind_ok _ _ _ _ _ (get_jpath_core path w jpath st1 Hne Hp)).
  rewrite (bind_ok _ _ _ _ _ (the_fs_set self fs _ Hfs)).
  rewrite (bind_ok _ _ _ _ _
             (fs_invoke (fs_exists fs jpath) (after_calls w st1 _ _)
                        false st2 He)).
  rewrite after_calls_twice. reflexivity.
Qed.

Lemma core_answers {R} (c : jcall R) (b : Bridge W) (r : R) (st : W) :
  answers java c (java_state b) r st ->
  answers (core java) c b r (mk_Bridge st (calls b ++ [CoreCall c])).
Proof. unfold answers, core. intros ->. reflexivity. Qed.

(** The loop of [list_directory], on a Java side whose metadata calls never
    throw. *)
Lemma children_records (self : t) (fs : jref) :
  _fs self = Some fs ->
  (forall st p,
      (exists b st', answers java (fs_isDirectory fs p) st b st')
      /\ (exists n st', answers java (fs_getBlockSize fs p) st n st')
      /\ (exists u st', answers java (fs_getUri_toString fs) st u st')) ->
  forall (statuses : list JFileStatus) (w0 : World (Bridge W)),
  exists infos w1,
    map_py (fun jstatus =>
              _get_jpath_info (core java) self (getPath jstatus)
                              (Some jstatus))
           statuses w0
    = (Ok infos, w1)
    /\ map (fun info : gmap string pyval => info !! "name") infos
       = map (fun jstatus =>
                Some (VStr (Path_toString (getPath jstatus)))) statuses
    /\ length (calls (jvm w1))
       = (length (calls (jvm w0)) + 3 * length statuses)%nat
    /\ filter is_status_fetch (calls (jvm w1))
       = filter is_status_fetch (calls (jvm w0)).
Proof.
  intros Hfs Htotal statuses.
  induction statuses as [|js statuses IH]; intros w0.
  - exists [], w0. cbn. repeat split; lia.
  - destruct (Htotal (java_state (jvm w0)) (getPath js))
      as ((b & s1 & H1) & _).
    destruct (Htotal s1 (getPath js)) as (_ & (n & s2 & H2) & _).
    destruct (Htotal s2 (getPath js)) as (_ & _ & (u & s3 & H3)).
    destruct (path_record_from_supplied_status (core java) self fs
                (getPath js) js w0 b n u _ _ _ Hfs
                (core_answers _ (jvm w0) _ _ H1)
                (core_answers _ (mk_Bridge s1 _) _ _ H2)
                (core_answers _ (mk_Bridge s2 _) _ _ H3))
      as (info & Hrun & Hname & _).
    match type of Hrun with
    | _ = (_, ?w1) => destruct (IH w1) as (infos & w2 & Hloop & Hn & Hl & Hf)
    end.
    exists (info :: infos), w2. split; [|split; [|split]].
    + cbn [map_py]. rewrite (bind_ok _ _ _ _ _ Hrun).
      rewrite (bind_ok _ _ _ _ _ Hloop). reflexivity.
    + cbn [map]. rewrite Hname, Hn. reflexivity.
    + rewrite Hl. cbn [after jvm calls length]. rewrite !length_app.
      cbn [length]. lia.
    + rewrite Hf. cbn [after jvm calls]. rewrite !filter_app.
      cbn. rewrite !app_nil_r. reflexivity.
Qed.

(** X18: [list_directory] on an existing directory, the metadata calls of
    the Java side never throwing: it returns one record per status of the
    listing, in the order of the listing, the name of each record being the
    path of its status.  Besides building the path, [exists] and
    [listStatus] it makes three calls per child, and it fetches no status:
    the records are built from the statuses of the listing. *)
Theorem list_directory_one_record_per_child
    (self : t) (fs : jref) (path : string) (w : World (Bridge W))
    (jpath : JPath) (statuses : list JFileStatus) (st1 st2 st3 : W) :
  _fs self = Some fs ->
  path <> "" ->
  (forall st p,
      (exists b st', answers java (fs_isDirectory fs p) st b st')
      /\ (exists n st', answers java (fs_getBlockSize fs p) st n st')
      /\ (exists u st', answers java (fs_getUri_toString fs) st u st')) ->
  answers java (Path_new path) (java_state (jvm w)) jpath st1 ->
  admin _ (fs_exists fs jpath) st1 = (inl true, st2) ->
  admin _ (fs_listStatus fs jpath) st2 = (inl statuses, st3) ->
  exists infos w',
    list_directory java admin self path w = (Ok infos, w')
    /\ length infos = length statuses
    /\ map (fun info : gmap string pyval => info !! "name") infos
       = map (fun jstatus =>
                Some (VStr (Path_toString (getPath jstatus)))) statuses
    /\ length (calls (jvm w'))
       = (length (calls (jvm w)) + 3 + 3 * length statuses)%nat
    /\ filter is_status_fetch (calls (jvm w'))
       = filter is_status_fetch (calls (jvm w)).
Proof.
  intros Hfs Hne Htotal Hp He Hl.
  destruct (children_records self fs Hfs Htotal statuses
              (after_calls w st3
                 [CoreCall (Path_new path); FsCall (fs_exists fs jpath);
                  FsCall (fs_listStatus fs jpath)]
                 [Called (Path_new path)]))
    as (infos & w' & Hloop & Hn & Hc & Hf).
  exists infos, w'. split; [|split; [|split; [|split]]].
  - unfold list_directory.
    rewrite (bind_ok _ _ _ _ _ (get_jpath_core path w jpath st1 Hne Hp)).
    rewrite (bind_ok _ _ _ _ _ (the_fs_set self fs _ Hfs)).
    rewrite (bind_ok _ _ _ _ _
               (fs_invoke (fs_exists fs jpath) (after_calls w st1 _ _)
                          true st2 He)).
    rewrite after_calls_twice. cbn [negb].
    rewrite (bind_ok _ _ _ _ _ (the_fs_set self fs _ Hfs)).
    rewrite (bind_ok _ _ _ _ _
               (fs_invoke (fs_listStatus fs jpath) (after_calls w st2 _ _)
                          statuses st3 Hl)).
    rewrite after_calls_twice. exact Hloop.
  - apply (f_equal length) in Hn. rewrite !length_map in Hn. exact Hn.
  - exact Hn.
  - rewrite Hc. cbn [after_calls jvm calls]. rewrite length_app.
    cbn [length]. lia.
  - rewrite Hf. cbn [after_calls jvm calls]. rewrite filter_app.
    cbn. apply app_nil_r.
Qed.

Lemma copy_helper_run
    (self to_hdfs : t) (fs to_fs : jref) (from_path to_path : string)
    (delete_source : bool) (w : World (Bridge W)) (src dst : JPath)
    (st1 st2 st3 : W) (done : bool) :
  _fs self = Some fs ->
  _fs to_hdfs = Some to_fs ->
  from_path <> "" ->
  to_path <> "" ->
  answers java (Path_new from_path) (java_state (jvm w)) src st1 ->
  answers java (Path_new to_path) st1 dst st2 ->
  admin _ (FileUtil_copy fs src to_fs dst delete_source
                         (_configuration self)) st2
  = (inl done, st3) ->
  _copy_helper java admin self from_path to_hdfs to_path delete_source w
  = (Ok done,
     after_calls w st3
       [CoreCall (Path_new from_path); CoreCall (Path_new to_path);
        FsCall (FileUtil_copy fs src to_fs dst delete_source
                              (_configuration self))]
       [Called (Path_new from_path); Called (Path_new to_path)]).
Proof.
  intros Hfs Hto Hnf Hnt Hp1 Hp2 Hc. unfold _copy_helper.
  rewrite (bind_ok _ _ _ _ _ (get_jpath_core from_path w src st1 Hnf Hp1)).
  rewrite (bind_ok _ _ _ _ _
             (get_jpath_core to_path (after_calls w st1 _ _) dst st2
                             Hnt Hp2)).
  rewrite after_calls_twice.
  rewrite (bind_ok _ _ _ _ _ (the_fs_set self fs _ Hfs)).
  rewrite (bind_ok _ _ _ _ _ (the_fs_set to_hdfs to_fs _ Hto)).
  rewrite (fs_invoke _ (after_calls w st2 _ _) done st3 Hc).
  rewrite after_calls_twice. reflexivity.
Qed.

(** X19: [copy] and [move] make the same call, [FileUtil.copy] from the
    filesystem of [self] to the filesystem of the destination handle, under
    the configuration of [self], with delete-source false for [copy] and
    true for [move].  Both return nothing: the boolean that the call
    answers is dropped. *)
Theorem copy_and_move_differ_by_delete_source
    (self to_hdfs : t) (fs to_fs : jref) (from_path to_path : string)
    (w : World (Bridge W)) (src dst : JPath) (st1 st2 : W) :
  _fs self = Some fs ->
  _fs to_hdfs = Some to_fs ->
  from_path <> "" ->
  to_path <> "" ->
  answers java (Path_new from_path) (java_state (jvm w)) src st1 ->
  answers java (Path_new to_path) st1 dst st2 ->
  forall (done : bool) (st3 : W),
    (admin _ (FileUtil_copy fs src to_fs dst false (_configuration self)) st2
     = (inl done, st3) ->
     copy java admin self from_path to_hdfs to_path w
     = (Ok tt,
        after_calls w st3
          [CoreCall (Path_new from_path); CoreCall (Path_new to_path);
           FsCall (FileUtil_copy fs src to_fs dst false
                                 (_configuration self))]
          [Called (Path_new from_path); Called (Path_new to_path)]))
    /\ (admin _ (FileUtil_copy fs src to_fs dst true (_configuration self))
              st2
        = (inl done, st3) ->
        move java admin self from_path to_hdfs to_path w
        = (Ok tt,
           after_calls w st3
             [CoreCall (Path_new from_path); CoreCall (Path_new to_path);
              FsCall (FileUtil_copy fs src to_fs dst true
                                    (_configuration self))]
             [Called (Path_new from_path); Called (Path_new to_path)])).
Proof.
  intros Hfs Hto Hnf Hnt Hp1 Hp2 done st3.
  split; intros Hc; unfold copy, move;
    rewrite (bind_ok _ _ _ _ _
               (copy_helper_run self to_hdfs fs to_fs from_path to_path _ w
                  src dst st1 st2 st3 done Hfs Hto Hnf Hnt Hp1 Hp2 Hc));
    reflexivity.
Qed.

(** X20: [delete], [set_replication] and [rename] return nothing: the
    boolean by which the filesystem reports whether it did the operation is
    dropped, so a refusal that is answered as false is not seen by the
    caller. *)
Theorem boolean_outcomes_are_dropped
    (self : t) (fs : jref) (path : string) (w : World (Bridge W))
    (jpath : JPath) (st1 : W) (done : bool) (st2 : W) :
  _fs self = Some fs ->
  path <> "" ->
  answers java (Path_new path) (java_state (jvm w)) jpath st1 ->
  (forall recursive,
      admin _ (fs_delete fs jpath recursive) st1 = (inl done, st2) ->
      delete java admin self path recursive w
      = (Ok tt,
         after_calls w st2
           [CoreCall (Path_new path); FsCall (fs_delete fs jpath recursive)]
           [Called (Path_new path)]))
  /\ (forall n,
        admin _ (fs_setReplication fs jpath n) st1 = (inl done, st2) ->
        set_replication java admin self path n w
        = (Ok tt,
           after_calls w st2
             [CoreCall (Path_new path);
              FsCall (fs_setReplication fs jpath n)]
             [Called (Path_new path)]))
  /\ (forall to_path jto st1',
        to_path <> "" ->
        answers java (Path_new to_path) st1 jto st1' ->
        admin _ (fs_rename fs jpath jto) st1' = (inl done, st2) ->
        rename java admin self path to_path w
        = (Ok tt,
           after_calls w st2
             [CoreCall (Path_new path); CoreCall (Path_new to_path);
              FsCall (fs_rename fs jpath jto)]
             [Called (Path_new path); Called (Path_new to_path)])).
Proof.
  intros Hfs Hne Hp. repeat split.
  - intros recursive Hd. unfold delete.
    rewrite (bind_ok _ _ _ _ _ (get_jpath_core path w jpath st1 Hne Hp)).
    rewrite (bind_ok _ _ _ _ _ (the_fs_set self fs _ Hfs)).
    rewrite (bind_ok _ _ _ _ _
               (fs_invoke _ (after_calls w st1 _ _) done st2 Hd)).
    rewrite after_calls_twice. reflexivity.
  - intros n Hd. unfold set_replication.
    rewrite (bind_ok _ _ _ _ _ (get_jpath_core path w jpath st1 Hne Hp)).
    rewrite (bind_ok _ _ _ _ _ (the_fs_set self fs _ Hfs)).
    rewrite (bind_ok _ _ _ _ _
               (fs_invoke _ (after_calls w st1 _ _) done st2 Hd)).
    rewrite after_calls_twice. reflexivity.
  - intros to_path jto st1' Hnt Hp2 Hd. unfold rename.
    rewrite (bind_ok _ _ _ _ _ (get_jpath_core path w jpath st1 Hne Hp)).
    rewrite (bind_ok _ _ _ _ _
               (get_jpath_core to_path (after_calls w st1 _ _) jto st1'
                               Hnt Hp2)).
    rewrite after_calls_twice.
    rewrite (bind_ok _ _ _ _ _ (the_fs_set self fs _ Hfs)).
    rewrite (bind_ok _ _ _ _ _
               (fs_invoke _ (after_calls w st1' _ _) done st2 Hd)).
    rewrite after_calls_twice. reflexivity.
Qed.

Lemma hosts_loop {V} (locations : list JBlockLocation) (w : World V) :
  map_py (fun jblock_location : JBlockLocation =>
            ret (map py_str jblock_location)) locations w
  = (Ok locations, w).
Proof.
  induction locations as [|l locations IH]; [reflexivity|].
  cbn [map_py]. unfold bind at 1. unfold ret at 1.
  rewrite (bind_ok _ _ _ _ _ IH). unfold ret. unfold py_str.
  rewrite map_id. reflexivity.
Qed.

(** X21: [get_hosts] returns the hosts of each block location, in the order
    in which the filesystem answered the locations.  When the status of the
    path cannot be fetched, the Java exception leaves [get_hosts] as it is,
    with its message: here it is not turned into an IOError as it is in
    [get_path_info]. *)
Theorem get_hosts_in_order_and_untranslated
    (self : t) (fs : jref) (path : string) (start length : Z)
    (w : World (Bridge W)) (jpath : JPath) (st1 : W) :
  _fs self = Some fs ->
  path <> "" ->
  answers java (Path_new path) (java_state (jvm w)) jpath st1 ->
  (forall jstatus locations st2 st3,
      answers java (fs_getFileStatus fs jpath) st1 jstatus st2 ->
      admin _ (fs_getFileBlockLocations fs jstatus start length) st2
      = (inl locations, st3) ->
      get_hosts java admin self path start length w
      = (Ok locations,
         after_calls w st3
           [CoreCall (Path_new path); CoreCall (fs_getFileStatus fs jpath);
            FsCall (fs_getFileBlockLocations fs jstatus start length)]
           [Called (Path_new path); Called (fs_getFileStatus fs jpath)]))
  /\ (forall msg st2,
        java _ (fs_getFileStatus fs jpath) st1 = (inr msg, st2) ->
        get_hosts java admin self path start length w
        = (Raise (mk_exn JavaException msg),
           after_calls w st2
             [CoreCall (Path_new path); CoreCall (fs_getFileStatus fs jpath)]
             [Called (Path_new path); Called (fs_getFileStatus fs jpath)])).
Proof.
  intros Hfs Hne Hp. split.
  - intros jstatus locations st2 st3 Hs Hl.
    unfold get_hosts, _get_jfilestatus.
    rewrite (bind_ok _ _ _ _ _ (get_jpath_core path w jpath st1 Hne Hp)).
    rewrite (bind_ok _ _ (after_calls w st1 _ _)
               (after_calls w st2
                  [CoreCall (Path_new path);
                   CoreCall (fs_getFileStatus fs jpath)]
                  [Called (Path_new path);
                   Called (fs_getFileStatus fs jpath)]) jstatus).
    + rewrite (bind_ok _ _ _ _ _ (the_fs_set self fs _ Hfs)).
      rewrite (bind_ok _ _ _ _ _
                 (fs_invoke _ (after_calls w st2 _ _) locations st3 Hl)).
      rewrite after_calls_twice. apply hosts_loop.
    + rewrite (bind_ok (ret jpath) _ _ _ jpath eq_refl).
      rewrite (bind_ok _ _ _ _ _ (the_fs_set self fs _ Hfs)).
      rewrite (core_invoke _ (after_calls w st1 _ _) jstatus st2 Hs).
      rewrite after_calls_twice. reflexivity.
  - intros msg st2 Hs. unfold get_hosts, _get_jfilestatus.
    rewrite (bind_ok _ _ _ _ _ (get_jpath_core path w jpath st1 Hne Hp)).
    unfold bind at 1.
    rewrite (bind_ok (ret jpath) _ _ _ jpath eq_refl).
    rewrite (bind_ok _ _ _ _ _ (the_fs_set self fs _ Hfs)).
    rewrite (core_invoke_throws _ (after_calls w st1 _ _) msg st2 Hs).
    rewrite after_calls_twice. reflexivity.
Qed.

End Admin.

(** ** setup.py *)

Section SetupProperties.

Lemma mtimes_failure (files : gmap string Z) (ps : list string)
    (e : Setup.error) :
  Setup.mtimes files ps = inl e ->
  e = Setup.OSError /\ exists p, p ∈ ps /\ files !! p = None.
Proof.
  induction ps as [|p ps IH]; [discriminate|].
  cbn [Setup.mtimes]. unfold Setup.mtime.
  destruct (files !! p) as [t|] eqn:Hp.
  - destruct (Setup.mtimes files ps) as [e'|ts]; [|discriminate].
    intros [= <-]. destruct (IH eq_refl) as (-> & q & Hq & Hnone).
    split; [reflexivity|]. exists q. split; [|exact Hnone].
    apply list_elem_of_further, Hq.
  - intros [= <-]. split; [reflexivity|]. exists p.
    split; [apply list_elem_of_here | exact Hp].
Qed.

Lemma mtimes_success (files : gmap string Z) (ps : list string)
    (ts : list Z) :
  Setup.mtimes files ps = inr ts ->
  length ts = length ps
  /\ (forall p, p ∈ ps -> files !! p <> None)
  /\ (forall t,
        (exists tp, tp ∈ ts /\ t < tp)
        <-> (exists p tp, p ∈ ps /\ files !! p = Some tp /\ t < tp)).
Proof.
  revert ts. induction ps as [|p ps IH]; intros ts.
  - intros [= <-]. split; [reflexivity|]. split.
    + intros p Hp. apply elem_of_nil in Hp as [].
    + intros t. split.
      * intros (tp & Hin & _). apply elem_of_nil in Hin as [].
      * intros (p & tp & Hin & _). apply elem_of_nil in Hin as [].
  - cbn [Setup.mtimes]. unfold Setup.mtime.
    destruct (files !! p) as [t0|] eqn:Hp; [|discriminate].
    destruct (Setup.mtimes files ps) as [e|ts0]; [discriminate|].
    intros [= <-]. destruct (IH ts0 eq_refl) as (Hlen & Hall & Hex).
    split; [cbn; f_equal; exact Hlen|]. split.
    + intros q Hq. apply elem_of_cons in Hq as [-> | Hq].
      * rewrite Hp. discriminate.
      * apply Hall, Hq.
    + intros t. split.
      * intros (tp & Hin & Hlt). apply elem_of_cons in Hin as [-> | Hin].
        -- exists p, t0. split; [apply list_elem_of_here|]. split; assumption.
        -- destruct (proj1 (Hex t)) as (q & tq & Hq & Hfq & Hltq); [eauto|].
           exists q, tq. split; [apply list_elem_of_further, Hq|].
           split; assumption.
      * intros (q & tq & Hq & Hfq & Hlt).
        apply elem_of_cons in Hq as [-> | Hq].
        -- rewrite Hp in Hfq. injection Hfq as <-. exists t0.
           split; [apply list_elem_of_here | exact Hlt].
        -- destruct (proj2 (Hex t)) as (tp & Hin & Hltp); [eauto|].
           exists tp. split; [apply list_elem_of_further, Hin | exact Hltp].
Qed.

Lemma fold_max_lt (l : list Z) (x t : Z) :
  t < fold_left Z.max l x <-> exists y, y ∈ x :: l /\ t < y.
Proof.
  revert x. induction l as [|z l IH]; intros x; cbn [fold_left].
  - split.
    + intros H. exists x. split; [apply list_elem_of_here | exact H].
    + intros (y & Hy & Hlt). apply list_elem_of_singleton in Hy as ->. exact Hlt.
  - rewrite IH. split.
    + intros (y & Hy & Hlt). apply elem_of_cons in Hy as [-> | Hy].
      * destruct (Z.max_spec x z) as [[_ E] | [_ E]]; rewrite E in Hlt.
        -- exists z. split; [|exact Hlt].
           apply list_elem_of_further, list_elem_of_here.
        -- exists x. split; [apply list_elem_of_here | exact Hlt].
      * exists y. split; [|exact Hlt].
        apply list_elem_of_further, list_elem_of_further, Hy.
    + intros (y & Hy & Hlt). apply elem_of_cons in Hy as [-> | Hy].
      * exists (Z.max x z). split; [apply list_elem_of_here | lia].
      * apply elem_of_cons in Hy as [-> | Hy].
        -- exists (Z.max x z). split; [apply list_elem_of_here | lia].
        -- exists y. split; [apply list_elem_of_further, Hy | exact Hlt].
Qed.

(** X22: [must_generate] on a non-empty list of prerequisites never raises,
    and it answers True exactly when the target is missing, or a
    prerequisite is missing, or some prerequisite is strictly newer than the
    target; equal times do not regenerate.  On an empty list it raises
    ValueError, also when the target is missing: [max] is evaluated before
    the target is looked at, and only OSError is caught. *)
Theorem must_generate_decides
    (files : gmap string Z) (target : string) (prerequisites : list string) :
  (prerequisites = [] ->
   Setup.must_generate files target prerequisites = inl Setup.ValueError)
  /\ (prerequisites <> [] ->
      exists b,
        Setup.must_generate files target prerequisites = inr b
        /\ (b = true <->
            files !! target = None
            \/ (exists p, p ∈ prerequisites /\ files !! p = None)
            \/ (exists p t tp,
                   p ∈ prerequisites /\ files !! target = Some t
                   /\ files !! p = Some tp /\ t < tp))).
Proof.
  split.
  - intros ->. reflexivity.
  - intros Hne. unfold Setup.must_generate.
    destruct (Setup.mtimes files prerequisites) as [e|ts] eqn:Hm.
    + destruct (mtimes_failure _ _ _ Hm) as (-> & p & Hp & Hnone).
      exists true. split; [reflexivity|]. split; [|reflexivity].
      intros _. right. left. eauto.
    + destruct (mtimes_success _ _ _ Hm) as (Hlen & Hall & Hex).
      destruct ts as [|x ts].
      { destruct prerequisites; [congruence | discriminate Hlen]. }
      cbn [Setup.py_max]. unfold Setup.mtime.
      destruct (files !! target) as [t|] eqn:Ht.
      * exists (t <? fold_left Z.max ts x). split; [reflexivity|].
        rewrite Z.ltb_lt, fold_max_lt, (Hex t). split.
        -- intros (p & tp & Hp & Hfp & Hlt). right. right.
           exists p, t, tp. repeat split; assumption.
        -- intros [Hnone | [(p & Hp & Hnone) | (p & t' & tp & Hp & Ht' & Hfp & Hlt)]].
           ++ discriminate Hnone.
           ++ exfalso. exact (Hall p Hp Hnone).
           ++ injection Ht' as <-. exists p, tp. repeat split; assumption.
      * exists true. split; [reflexivity|]. split; [|reflexivity].
        intros _. left. reflexivity.
Qed.

End SetupProperties.

(** ** The further properties on the small Java side *)

Lemma no_stream_no_call_witness :
  CoreHdfsFile.tell sim_java no_stream_handle sim_at_start
  = (Raise (mk_exn IOError ""), sim_at_start)
  /\ CoreHdfsFile.available sim_java no_stream_handle sim_at_start
     = (Ok (-1), sim_at_start).
Proof.
  destruct (no_stream_no_call sim_java 16384 no_stream_handle sim_at_start
              eq_refl)
    as (_ & _ & _ & _ & _ & _ & _ & Htell & _ & _ & Hav).
  split; [exact Htell | exact Hav].
Defined.

Lemma stream_type_gates_methods_witness :
  CoreHdfsFile.read sim_java 16384 output_handle 4 sim_at_start
  = (Raise (mk_exn IOError ""), sim_at_start)
  /\ CoreHdfsFile.write sim_java input_handle "hi" sim_at_start
     = (Raise (mk_exn IOError ""), sim_at_start).
Proof.
  destruct (stream_type_gates_methods sim_java 16384 output_handle
              sim_at_start) as (Hin & _).
  destruct (stream_type_gates_methods sim_java 16384 input_handle
              sim_at_start) as (_ & Hout).
  destruct (Hin ltac:(discriminate)) as (Hread & _).
  destruct (Hout ltac:(discriminate)) as (Hwrite & _).
  split; [exact (Hread 4) | exact (Hwrite "hi")].
Defined.

Lemma read_and_close_raise_only_IOError_witness :
  CoreHdfsFile.read sim_java 16384 input_handle 4 sim_closed
  = (Raise (mk_exn IOError "Stream closed"),
     after sim_closed (jvm sim_closed)
           [Called (ByteBuffer_allocate_array 4);
            Called (stream_read 7%nat [0; 0; 0; 0])])
  /\ cls (mk_exn IOError "Stream closed") = IOError.
Proof.
  split; [reflexivity|].
  destruct (read_and_close_raise_only_IOError sim_java 16384 input_handle
              sim_closed
              (after sim_closed (jvm sim_closed)
                     [Called (ByteBuffer_allocate_array 4);
                      Called (stream_read 7%nat [0; 0; 0; 0])])
              (mk_exn IOError "Stream closed")) as (Hread & _).
  exact (Hread 4 eq_refl).
Defined.

Lemma stream_exceptions_pass_untranslated_witness :
  CoreHdfsFile.tell sim_java input_handle sim_closed
  = (Raise (mk_exn JavaException "Stream closed"),
     after sim_closed (jvm sim_closed) [Called (stream_getPos 7%nat)])
  /\ CoreHdfsFile.write sim_java output_handle "hi" sim_closed
     = (Raise (mk_exn JavaException "Stream closed"),
        after sim_closed (jvm sim_closed)
              [Called (jbytearray "hi");
               Called (stream_write 7%nat [104; 105])]).
Proof.
  destruct (stream_exceptions_pass_untranslated sim_java input_handle 7%nat
              sim_closed "Stream closed" (jvm sim_closed) eq_refl)
    as (Htell & _).
  destruct (stream_exceptions_pass_untranslated sim_java output_handle 7%nat
              sim_closed "Stream closed" (jvm sim_closed) eq_refl)
    as (_ & _ & _ & Hwrite).
  split.
  - exact (Htell eq_refl).
  - exact (Hwrite "hi" [104; 105] (jvm sim_closed) eq_refl
             ltac:(discriminate) eq_refl eq_refl).
Defined.

Lemma read_returns_count_bytes_witness :
  exists s w',
    CoreHdfsFile.read sim_java 16384 input_handle 4 sim_at_start = (Ok s, w')
    /\ len s = 4.
Proof.
  destruct (read_returns_count_bytes sim_java 16384 input_handle 7%nat
              sim_at_start 4 [0; 0; 0; 0] [104; -61; -87; 33] 4
              (jvm sim_at_start)
              (mk_jstate [104; -61; -87; 33; 10] 4 [] 8%nat)
              eq_refl eq_refl ltac:(discriminate) ltac:(discriminate)
              eq_refl) as (Hread & _).
  destruct (Hread eq_refl) as (s & w' & Hrun & _ & Hlen).
  exists s, w'. split; [exact Hrun|]. apply Hlen. cbn. lia.
Defined.

Lemma marshal_injective_on_java_bytes_witness :
  exists s,
    marshal [104; -61; -87; 33; 10] 4 sim_at_start = (Ok s, sim_at_start)
    /\ marshal [104; -61; -87; 33] (-5) sim_at_start = (Ok "", sim_at_start)
    /\ slice_to [104; -61; -87; 33; 10] 4 = slice_to [104; -61; -87; 33] 9.
Proof.
  eexists. split; [reflexivity|]. split; [reflexivity|].
  eapply marshal_injective_on_java_bytes
    with (w := sim_at_start) (w1 := sim_at_start) (w2 := sim_at_start);
    [repeat constructor; lia | repeat constructor; lia
     | reflexivity | reflexivity].
Defined.

Lemma open_file_handle_well_formed_witness :
  exists h w',
    CoreHdfsFs.open_file sim_java sim_fs "/a" O_WRONLY 0 0 0 16384 sim_at_eof
    = (Ok h, w')
    /\ CoreHdfsFile._mode h = O_WRONLY
    /\ CoreHdfsFile._stream_type h = CoreHdfsFile._OUTPUT.
Proof.
  eexists _, _. split; [reflexivity|].
  destruct (open_file_handle_well_formed sim_java sim_fs "/a" O_WRONLY
              0 0 0 16384 sim_at_eof _ _ eq_refl)
    as (Hmode & _ & [(Hacc & _) | (_ & Hty & _)]).
  - discriminate Hacc.
  - split; [exact Hmode | exact Hty].
Defined.

Lemma open_file_read_only_witness :
  CoreHdfsFs.open_file sim_java sim_fs "/a" O_RDONLY 0 0 0 16384 sim_at_eof
  = (Ok (CoreHdfsFile.mk O_RDONLY (Some 8%nat) CoreHdfsFile._INPUT None),
     after sim_at_eof (mk_jstate [104; -61; -87; 33; 10] 5 [] 9%nat)
       [Called (Configuration_getInt 0%nat "dfs.blocksize" 4096);
        Called (Path_new "/a"); Called (fs_open 2%nat sim_path 4096);
        Logged "debug" "File opened in read mode"]).
Proof.
  exact (open_file_read_only sim_java sim_fs 2%nat "/a" O_RDONLY 0 0 0 16384
           sim_at_eof 4096 sim_path 8%nat (jvm sim_at_eof) (jvm sim_at_eof)
           (mk_jstate [104; -61; -87; 33; 10] 5 [] 9%nat)
           eq_refl eq_refl ltac:(discriminate) eq_refl eq_refl eq_refl).
Defined.

Lemma open_file_append_witness :
  CoreHdfsFs.open_file sim_java sim_fs "/a" (Z.lor O_WRONLY O_APPEND)
                       4096 0 0 16384 sim_at_eof
  = (Ok (CoreHdfsFile.mk (Z.lor O_WRONLY O_APPEND) (Some 8%nat)
                         CoreHdfsFile._OUTPUT (Some 9%nat)),
     after sim_at_eof (mk_jstate [104; -61; -87; 33; 10] 5 [] 10%nat)
       [Called (Path_new "/a"); Called (fs_append 2%nat sim_path);
        Logged "debug" "File opened in append mode";
        Called (BufferedOutputStream_new (Some 8%nat))]).
Proof.
  exact (open_file_append sim_java sim_fs 2%nat "/a"
           (Z.lor O_WRONLY O_APPEND) 4096 0 0 16384
           sim_at_eof 4096 sim_path 8%nat 9%nat
           (jvm sim_at_eof) (jvm sim_at_eof)
           (mk_jstate [104; -61; -87; 33; 10] 5 [] 9%nat)
           (mk_jstate [104; -61; -87; 33; 10] 5 [] 10%nat)
           eq_refl eq_refl eq_refl ltac:(discriminate)
           (conj eq_refl eq_refl) eq_refl eq_refl eq_refl).
Defined.

Lemma open_file_create_witness :
  CoreHdfsFs.open_file sim_java sim_fs "/a" (Z.lor O_WRONLY O_CREAT)
                       0 0 0 16384 sim_at_eof
  = (Ok (CoreHdfsFile.mk (Z.lor O_WRONLY O_CREAT) (Some 8%nat)
                         CoreHdfsFile._OUTPUT (Some 9%nat)),
     after sim_at_eof (mk_jstate [104; -61; -87; 33; 10] 5 [] 10%nat)
       [Called (Configuration_getInt 0%nat "dfs.blocksize" 4096);
        Called (Configuration_getInt 0%nat "dfs.replication" 1);
        Called (Path_new "/a");
        Called (fs_getDefaultBlockSize 2%nat sim_path);
        Called (fs_create 2%nat sim_path true 4096 1 134217728);
        Logged "debug" "File opened in write mode";
        Called (BufferedOutputStream_new (Some 8%nat))]).
Proof.
  exact (open_file_create sim_java sim_fs 2%nat "/a"
           (Z.lor O_WRONLY O_CREAT) 0 0 0 16384
           sim_at_eof 4096 1 134217728 sim_path 8%nat 9%nat
           (jvm sim_at_eof) (jvm sim_at_eof) (jvm sim_at_eof)
           (jvm sim_at_eof)
           (mk_jstate [104; -61; -87; 33; 10] 5 [] 9%nat)
           (mk_jstate [104; -61; -87; 33; 10] 5 [] 10%nat)
           eq_refl eq_refl eq_refl ltac:(discriminate)
           eq_refl eq_refl eq_refl eq_refl eq_refl eq_refl).
Defined.

(** The path that the small Java side builds for "/forbidden". *)
Lemma sim_guarded_path :
  answers sim_guarded (Path_new "/forbidden") (jvm sim_at_eof)
    (mk_JPath "/forbidden" "/forbidden" 1 true
              (Some (mk_JPath "/" "" 0 true None)))
    (jvm sim_at_eof).
Proof. reflexivity. Defined.

Lemma open_file_failure_is_IOError_witness :
  CoreHdfsFs.open_file sim_guarded sim_fs "/forbidden" O_RDONLY 0 0 0
                       16384 sim_at_eof
  = (Raise (mk_exn IOError "Permission denied"),
     after sim_at_eof (jvm sim_at_eof)
       [Called (Configuration_getInt 0%nat "dfs.blocksize" 4096);
        Called (Path_new "/forbidden");
        Called (fs_open 2%nat
                  (mk_JPath "/forbidden" "/forbidden" 1 true
                            (Some (mk_JPath "/" "" 0 true None)))
                  4096)])
  /\ CoreHdfsFs.open_file sim_guarded sim_fs "/forbidden" O_WRONLY 0 0 0
                          16384 sim_at_eof
     = (Raise (mk_exn IOError "Permission denied"),
        after sim_at_eof (jvm sim_at_eof)
          [Called (Configuration_getInt 0%nat "dfs.blocksize" 4096);
           Called (Configuration_getInt 0%nat "dfs.replication" 1);
           Called (Path_new "/forbidden");
           Called (fs_getDefaultBlockSize 2%nat
                     (mk_JPath "/forbidden" "/forbidden" 1 true
                               (Some (mk_JPath "/" "" 0 true None))));
           Called (fs_create 2%nat
                     (mk_JPath "/forbidden" "/forbidden" 1 true
                               (Some (mk_JPath "/" "" 0 true None)))
                     true 4096 1 134217728)])
  /\ CoreHdfsFs.open_file sim_guarded sim_fs "/forbidden"
                          (Z.lor O_WRONLY O_APPEND) 512 0 0 16384 sim_at_eof
     = (Raise (mk_exn IOError "Permission denied"),
        after sim_at_eof (jvm sim_at_eof)
          [Called (Path_new "/forbidden");
           Called (fs_append 2%nat
                     (mk_JPath "/forbidden" "/forbidden" 1 true
                               (Some (mk_JPath "/" "" 0 true None))))]).
Proof.
  split; [|split].
  - destruct (open_file_failure_is_IOError sim_guarded sim_fs 2%nat
                "/forbidden" O_RDONLY 0 0 0 16384 sim_at_eof
                4096 "Permission denied" (jvm sim_at_eof)
                eq_refl ltac:(discriminate) eq_refl) as (Hopen & _).
    exact (Hopen _ (jvm sim_at_eof) (jvm sim_at_eof)
                 eq_refl sim_guarded_path eq_refl).
  - destruct (open_file_failure_is_IOError sim_guarded sim_fs 2%nat
                "/forbidden" O_WRONLY 0 0 0 16384 sim_at_eof
                4096 "Permission denied" (jvm sim_at_eof)
                eq_refl ltac:(discriminate) eq_refl) as (_ & _ & Hcreate).
    exact (Hcreate 1 134217728 _ (jvm sim_at_eof) (jvm sim_at_eof)
                   (jvm sim_at_eof) (jvm sim_at_eof)
                   eq_refl eq_refl eq_refl sim_guarded_path eq_refl eq_refl).
  - destruct (open_file_failure_is_IOError sim_guarded sim_fs 2%nat
                "/forbidden" (Z.lor O_WRONLY O_APPEND) 512 0 0 16384
                sim_at_eof 512 "Permission denied" (jvm sim_at_eof)
                eq_refl ltac:(discriminate) (conj eq_refl eq_refl))
      as (_ & Happend & _).
    exact (Happend _ (jvm sim_at_eof) (jvm sim_at_eof)
                   eq_refl eq_refl sim_guarded_path eq_refl).
Defined.

Lemma open_file_empty_path_witness :
  CoreHdfsFs.open_file sim_java sim_fs ""
                       (Z.lor O_WRONLY (Z.lor O_CREAT O_EXCL)) 4096 3 0 16384
                       sim_at_eof
  = (Raise (mk_exn ValueError "Empty path"),
     after sim_at_eof (jvm sim_at_eof)
       [Logged "warn" "hdfs does not truly support O_CREATE && O_EXCL"]).
Proof.
  exact (open_file_empty_path sim_java sim_fs
           (Z.lor O_WRONLY (Z.lor O_CREAT O_EXCL)) 4096 3 0 16384 sim_at_eof
           (or_intror eq_refl) ltac:(discriminate) ltac:(discriminate)).
Defined.

Lemma status_failure_is_bare_IOError_witness :
  CoreHdfsFs.get_path_info sim_guarded sim_fs "/forbidden" sim_at_eof
  = (Raise (mk_exn IOError ""),
     after sim_at_eof (jvm sim_at_eof)
       [Called (Path_new "/forbidden");
        Called (fs_getFileStatus 2%nat
                  (mk_JPath "/forbidden" "/forbidden" 1 true
                            (Some (mk_JPath "/" "" 0 true None))))])
  /\ fst (CoreHdfsFs.chown sim_guarded sim_fs "/forbidden" (VStr "alice")
                           (VStr "staff") sim_at_eof)
     = Raise (mk_exn IOError "").
Proof.
  destruct (status_failure_is_bare_IOError sim_guarded sim_fs 2%nat
              "/forbidden" (VStr "alice") (VStr "staff") sim_at_eof _
              "Permission denied" (jvm sim_at_eof) (jvm sim_at_eof)
              eq_refl ltac:(discriminate) sim_guarded_path eq_refl)
    as (Hinfo & Hchown).
  split; [exact Hinfo|]. rewrite (Hchown eq_refl). reflexivity.
Defined.

Lemma path_record_from_supplied_status_witness :
  exists info w',
    CoreHdfsFs._get_jpath_info sim_java sim_fs sim_path
      (Some (sim_status (jvm sim_at_eof) sim_path)) sim_at_eof
    = (Ok info, w')
    /\ info !! "kind" = Some (VStr "file")
    /\ info !! "parent" = Some (VStr "")
    /\ info !! "size" = Some (VInt 5)
    /\ info !! "mode" = None.
Proof.
  destruct (path_record_from_supplied_status sim_java sim_fs 2%nat sim_path
              (sim_status (jvm sim_at_eof) sim_path) sim_at_eof
              false 134217728 "hdfs://localhost:9000"
              (jvm sim_at_eof) (jvm sim_at_eof) (jvm sim_at_eof)
              eq_refl eq_refl eq_refl eq_refl)
    as (info & Hrun & _ & Hkind & _ & _ & _ & _ & _ & _ & _ & _ & Hsize & _
        & Hparent & Hother).
  exists info. eexists. split; [exact Hrun|].
  split; [exact Hkind|]. split; [exact Hparent|]. split; [exact Hsize|].
  apply Hother. repeat rewrite not_elem_of_cons.
  repeat split; try discriminate. apply not_elem_of_nil.
Defined.

Lemma init_keeps_parameters_and_connects_witness :
  exists h w',
    CoreHdfsFs.__init__ sim_java (Some "node1") 9000 (Some "bob") None
                        sim_at_eof = (Ok h, w')
    /\ CoreHdfsFsAdmin.get_host h = Some "node1"
    /\ CoreHdfsFsAdmin.get_port h = 9000
    /\ CoreHdfsFsAdmin.get_user h = Some "bob".
Proof.
  eexists _, _. split; [vm_compute; reflexivity|].
  destruct (init_keeps_parameters_and_connects sim_java (Some "node1") 9000
              (Some "bob") None sim_at_eof _ _ eq_refl)
    as (Hhost & Hport & Huser & _).
  split; [exact Hhost|]. split; [exact Hport | exact Huser].
Defined.

Lemma empty_path_never_reaches_backend_witness :
  CoreHdfsFsAdmin.delete sim_java sim_admin sim_fs "" true sim_bridge
  = refused sim_bridge
  /\ CoreHdfsFsAdmin.rename sim_java sim_admin sim_fs "/a" "" sim_bridge
     = refused (after_calls sim_bridge (jvm sim_at_eof)
                  [CoreCall (Path_new "/a")] [Called (Path_new "/a")]).
Proof.
  destruct (empty_path_never_reaches_backend sim_java sim_admin sim_fs sim_fs
              2%nat sim_bridge eq_refl)
    as (_ & _ & _ & Hdelete & _ & _ & _ & _ & _ & _ & _ & _ & Hlate).
  split; [exact (Hdelete true)|].
  destruct (Hlate "/a" sim_path (jvm sim_at_eof) ltac:(discriminate) eq_refl)
    as (Hrename & _).
  exact Hrename.
Defined.

Lemma list_directory_missing_path_witness :
  CoreHdfsFsAdmin.list_directory sim_java sim_admin sim_fs "/missing"
                                 sim_bridge
  = (Raise (mk_exn IOError "Path /missing does not exist"),
     after_calls sim_bridge (jvm sim_at_eof)
       [CoreCall (Path_new "/missing");
        FsCall (fs_exists 2%nat
                  (mk_JPath "/missing" "/missing" 1 true
                            (Some (mk_JPath "/" "" 0 true None))))]
       [Called (Path_new "/missing")]).
Proof.
  exact (list_directory_missing_path sim_java sim_admin sim_fs 2%nat
           "/missing" sim_bridge _ (jvm sim_at_eof) (jvm sim_at_eof)
           eq_refl ltac:(discriminate) eq_refl eq_refl).
Defined.

Lemma sim_metadata_total (st : jstate) (p : JPath) :
  (exists b st', answers sim_java (fs_isDirectory 2%nat p) st b st')
  /\ (exists n st', answers sim_java (fs_getBlockSize 2%nat p) st n st')
  /\ (exists u st', answers sim_java (fs_getUri_toString 2%nat) st u st').
Proof. repeat split; eexists _, _; reflexivity. Defined.

Lemma list_directory_one_record_per_child_witness :
  exists infos w',
    CoreHdfsFsAdmin.list_directory sim_java sim_admin sim_fs "/a" sim_bridge
    = (Ok infos, w')
    /\ map (fun info : gmap string pyval => info !! "name") infos
       = [Some (VStr "/a/a"); Some (VStr "/a/b")]
    /\ length (calls (jvm w')) = 9%nat.
Proof.
  destruct (list_directory_one_record_per_child sim_java sim_admin sim_fs
              2%nat "/a" sim_bridge sim_path
              [sim_status (jvm sim_at_eof) (sim_child sim_path "a");
               sim_status (jvm sim_at_eof) (sim_child sim_path "b")]
              (jvm sim_at_eof) (jvm sim_at_eof) (jvm sim_at_eof)
              eq_refl ltac:(discriminate) sim_metadata_total
              eq_refl eq_refl eq_refl)
    as (infos & w' & Hrun & _ & Hnames & Hcalls & _).
  exists infos, w'. split; [exact Hrun|]. split; [exact Hnames | exact Hcalls].
Defined.

Lemma copy_and_move_differ_by_delete_source_witness :
  CoreHdfsFsAdmin.move sim_java sim_admin sim_fs "/a" sim_fs "/b" sim_bridge
  = (Ok tt,
     after_calls sim_bridge (jvm sim_at_eof)
       [CoreCall (Path_new "/a"); CoreCall (Path_new "/b");
        FsCall (FileUtil_copy 2%nat sim_path 2%nat
                  (mk_JPath "/b" "/b" 1 true
                            (Some (mk_JPath "/" "" 0 true None)))
                  true 0%nat)]
       [Called (Path_new "/a"); Called (Path_new "/b")]).
Proof.
  destruct (copy_and_move_differ_by_delete_source sim_java sim_admin
              sim_fs sim_fs 2%nat 2%nat "/a" "/b" sim_bridge sim_path _
              (jvm sim_at_eof) (jvm sim_at_eof)
              eq_refl eq_refl ltac:(discriminate) ltac:(discriminate)
              eq_refl eq_refl true (jvm sim_at_eof)) as (_ & Hmove).
  exact (Hmove eq_refl).
Defined.

Lemma boolean_outcomes_are_dropped_witness :
  CoreHdfsFsAdmin.delete sim_java sim_admin sim_fs "/a" true sim_bridge
  = (Ok tt,
     after_calls sim_bridge (jvm sim_at_eof)
       [CoreCall (Path_new "/a"); FsCall (fs_delete 2%nat sim_path true)]
       [Called (Path_new "/a")]).
Proof.
  destruct (boolean_outcomes_are_dropped sim_java sim_admin sim_fs 2%nat
              "/a" sim_bridge sim_path (jvm sim_at_eof) true
              (jvm sim_at_eof) eq_refl ltac:(discriminate) eq_refl)
    as (Hdelete & _).
  exact (Hdelete true eq_refl).
Defined.

Lemma get_hosts_in_order_and_untranslated_witness :
  CoreHdfsFsAdmin.get_hosts sim_java sim_admin sim_fs "/a" 0 5 sim_bridge
  = (Ok [["node1"; "node2"]; ["node3"]],
     after_calls sim_bridge (jvm sim_at_eof)
       [CoreCall (Path_new "/a"); CoreCall (fs_getFileStatus 2%nat sim_path);
        FsCall (fs_getFileBlockLocations 2%nat
                  (sim_status (jvm sim_at_eof) sim_path) 0 5)]
       [Called (Path_new "/a"); Called (fs_getFileStatus 2%nat sim_path)])
  /\ fst (CoreHdfsFsAdmin.get_hosts sim_guarded sim_admin sim_fs "/forbidden"
                                    0 5 sim_bridge)
     = Raise (mk_exn JavaException "Permission denied").
Proof.
  destruct (get_hosts_in_order_and_untranslated sim_java sim_admin sim_fs
              2%nat "/a" 0 5 sim_bridge sim_path (jvm sim_at_eof)
              eq_refl ltac:(discriminate) eq_refl) as (Hok & _).
  destruct (get_hosts_in_order_and_untranslated sim_guarded sim_admin sim_fs
              2%nat "/forbidden" 0 5 sim_bridge _ (jvm sim_at_eof)
              eq_refl ltac:(discriminate) sim_guarded_path) as (_ & Hfail).
  split.
  - exact (Hok _ _ (jvm sim_at_eof) (jvm sim_at_eof) eq_refl eq_refl).
  - rewrite (Hfail "Permission denied" (jvm sim_at_eof) eq_refl).
    reflexivity.
Defined.

Lemma must_generate_decides_witness :
  Setup.must_generate sim_files "pydoop/version.py" ["VERSION"] = inr true
  /\ Setup.must_generate sim_files "pydoop/config.py" ["DEFAULT_HADOOP_HOME"]
     = inr true
  /\ Setup.must_generate sim_files "pydoop/version.py" ["DEFAULT_HADOOP_HOME"]
     = inr false
  /\ Setup.must_generate sim_files "pydoop/config.py" [] = inl Setup.ValueError.
Proof.
  destruct (must_generate_decides sim_files "pydoop/config.py" [])
    as (Hempty & _).
  destruct (must_generate_decides sim_files "pydoop/version.py" ["VERSION"])
    as (_ & Hnewer).
  destruct (Hnewer ltac:(discriminate)) as (b & Hrun & Hb).
  split; [|split; [reflexivity|split; [reflexivity | exact (Hempty eq_refl)]]].
  rewrite Hrun. f_equal. apply Hb. right. right.
  exists "VERSION", 100, 200.
  split; [apply list_elem_of_here|].
  split; [vm_compute; reflexivity|].
  split; [vm_compute; reflexivity | lia].
Defined.
